(** * MedAI Assist: the relay endpoints and the role-gated shell

    A shallow embedding of the request handlers ([api/infer], [api/train]),
    of the login form, the dashboard layout and its sidebar, and of the
    pan/zoom state of the patient-detail view, followed by the properties
    the specification states about them.

    Conventions.  A handler is an [Async] computation: it threads the list
    of effects performed so far (directory creation, file writes, process
    spawns, console output) and ends by returning, by throwing, or by
    awaiting a promise that never settles.  Everything the handlers cannot
    decide themselves (the clock, the file system, the child process) is
    read from a [World]; the two library functions whose text is not part of
    the repository, [JSON.parse] and [path.join], are fields of a [Runtime]. *)

From Stdlib Require Import ZArith Lia.
From stdpp Require Import base option list strings pretty gmap.

(** ** JavaScript values that reach the handlers *)

Module Js.

(** A [FormData] entry is a string or a [File]. *)
Inductive Entry :=
| EStr (s : string)
| EFile (name : string) (content : list Byte.byte).

(** [formData.get(name)] yields an entry, or [null] when the field is absent. *)
Definition Value := option Entry.

(** A multipart body keeps its parts in order and may repeat a name. *)
Definition FormData := list (string * Entry).

(** [formData.get(name)]: the first part with that name. *)
Fixpoint get (fd : FormData) (name : string) : Value :=
  match fd with
  | [] => None
  | (k, v) :: rest => if String.eqb k name then Some v else get rest name
  end.

(** [!!v]: [null] and the empty string are falsy, every object is truthy. *)
Definition truthy (v : Value) : bool :=
  match v with
  | None => false
  | Some (EStr s) => negb (String.eqb s "")
  | Some (EFile _ _) => true
  end.

(** Truthiness of a string accumulator ([if (error)]). *)
Definition truthy_str (s : string) : bool := negb (String.eqb s "").

(** [`${v}`]: how a template literal renders a value. *)
Definition to_string (v : Value) : string :=
  match v with
  | None => "null"
  | Some (EStr s) => s
  | Some (EFile _ _) => "[object File]"
  end.

(** [`${v.name}`] for a truthy [v]: a [File] has a name, a string has none. *)
Definition name_of (v : Value) : string :=
  match v with
  | Some (EFile n _) => n
  | _ => "undefined"
  end.

(** [`${Date.now()}`]: the clock is an integer number of milliseconds. *)
Definition number_to_string (n : Z) : string := pretty n.

(** [s] contains [a] and, somewhere to its right, [b]. *)
Definition occurs_before (a b s : string) : Prop :=
  exists p m q, s = p +:+ a +:+ m +:+ b +:+ q.

End Js.

(** ** Effects, exceptions and the surrounding world *)

Module Relay.
Import Js.

Inductive Exn :=
| BodyError                         (* req.formData() rejected *)
| TypeError (what : string)         (* e.g. arrayBuffer is not a function *)
| FsError (code : string)           (* mkdir / writeFile rejected; error.code *)
| SpawnError                        (* spawn() itself threw *)
| ExitError (code : option Z)       (* new Error(`Process exited with code ${code}`) *)
| StderrError (text : string)       (* new Error(error) *)
| SyntaxError (text : string).      (* JSON.parse *)

Inductive Event :=
| Mkdir (path : string)
| WriteFile (path : string) (data : list Byte.byte)
| Spawn (cmd : string) (args : list Value)
| ConsoleError (label : string) (e : Exn).

(** What becomes of a spawned child: [spawn] throws, the child never emits
    [close], or it closes with an exit code ([null] when killed by a signal)
    after writing chunks to its two output streams.  An [error] event on the
    child, for which the handlers register no listener, is outside the
    model. *)
Inductive Child :=
| SpawnThrows
| NeverCloses
| Closes (code : option Z) (stdout stderr : list string).

Inductive Request :=
| Multipart (fd : FormData)
| Unreadable.

Record World := {
  cwd : string;                                   (* process.cwd() *)
  now : Z;                                        (* Date.now() *)
  mkdir_result : string -> option string;         (* None: created; Some code: rejected *)
  writeFile_result : string -> list Byte.byte -> option string;
  child : string -> list Value -> Child;
}.

(** The two library functions the handlers call. *)
Class Runtime := {
  Doc : Type;                                     (* a parsed JSON document *)
  JSON_parse : string -> option Doc;              (* None: SyntaxError *)
  path_join : list string -> string;
}.

Inductive Outcome (A : Type) :=
| Returned (a : A)
| Thrown (e : Exn)
| Stuck.
Arguments Returned {A} a.
Arguments Thrown {A} e.
Arguments Stuck {A}.

Definition Async (A : Type) : Type := list Event -> Outcome A * list Event.

#[global] Instance Async_ret : MRet Async := fun A a t => (Returned a, t).

#[global] Instance Async_bind : MBind Async := fun A B k m t =>
  match m t with
  | (Returned a, t') => k a t'
  | (Thrown e, t') => (Thrown e, t')
  | (Stuck, t') => (Stuck, t')
  end.

Definition throw {A} (e : Exn) : Async A := fun t => (Thrown e, t).
Definition never {A} : Async A := fun t => (Stuck, t).
Definition emit (ev : Event) : Async unit := fun t => (Returned tt, t ++ [ev]).

(** [try { body } catch (e) { handler e }] *)
Definition try_catch {A} (body : Async A) (handler : Exn -> Async A) : Async A :=
  fun t =>
    match body t with
    | (Thrown e, t') => handler e t'
    | r => r
    end.

Definition run {A} (m : Async A) : Outcome A * list Event := m [].

(** *** Primitive operations *)

Definition req_formData (req : Request) : Async FormData :=
  match req with
  | Multipart fd => mret fd
  | Unreadable => throw BodyError
  end.

Definition mkdir (w : World) (path : string) : Async unit :=
  emit (Mkdir path) ;;
  match mkdir_result w path with
  | None => mret tt
  | Some code => throw (FsError code)
  end.

Definition writeFile (w : World) (path : string) (data : list Byte.byte) : Async unit :=
  emit (WriteFile path data) ;;
  match writeFile_result w path data with
  | None => mret tt
  | Some code => throw (FsError code)
  end.

(** [Buffer.from(await v.arrayBuffer())] for a truthy [v]. *)
Definition arrayBuffer (v : Value) : Async (list Byte.byte) :=
  match v with
  | Some (EFile _ content) => mret content
  | _ => throw (TypeError "arrayBuffer is not a function")
  end.

Definition spawn (w : World) (cmd : string) (args : list Value) : Async Child :=
  emit (Spawn cmd args) ;;
  match child w cmd args with
  | SpawnThrows => throw SpawnError
  | c => mret c
  end.

(** The accumulators [result += data.toString()] once the stream has ended. *)
Definition collect (chunks : list string) : string := String.concat "" chunks.

(** Both streams are listened to; the promise resolves on exit code 0 and
    rejects on any other. *)
Definition wait_close (c : Child) : Async (string * string) :=
  match c with
  | SpawnThrows => throw SpawnError
  | NeverCloses => never
  | Closes code out err =>
      if decide (code = Some 0%Z) then mret (collect out, collect err)
      else throw (ExitError code)
  end.

(** Only [stdout] is listened to. *)
Definition wait_close_stdout (c : Child) : Async string :=
  match c with
  | SpawnThrows => throw SpawnError
  | NeverCloses => never
  | Closes code out _ =>
      if decide (code = Some 0%Z) then mret (collect out)
      else throw (ExitError code)
  end.

Definition console_error (label : string) (e : Exn) : Async unit :=
  emit (ConsoleError label e).

Section WithRuntime.
Context {rt : Runtime}.

Definition parse (text : string) : Async Doc :=
  match JSON_parse text with
  | Some d => mret d
  | None => throw (SyntaxError text)
  end.

(** The object literal handed to [JSON.stringify], field by field. *)
Inductive Field :=
| FBool (b : bool)
| FStr (s : string)
| FDoc (d : Doc).

Record Response := {
  body : list (string * Field);
  status : Z;
}.


(** *** The relay protocol in closed form

    The three handlers end alike: spawn the child, await [close], look at
    what was collected, parse, answer.  [settle] and [settle_stdout] say
    what the awaiting and parsing amounts to for a given child, [respond]
    what the enclosing [try]/[catch] makes of it.  They are used to state
    how the handlers run (see [relay_run] and the path relations below). *)

Definition settle (c : Child) : Outcome Doc :=
  match c with
  | SpawnThrows => Thrown SpawnError
  | NeverCloses => Stuck
  | Closes code out err =>
      if decide (code = Some 0%Z) then
        if truthy_str (collect err) then Thrown (StderrError (collect err))
        else match JSON_parse (collect out) with
             | Some d => Returned d
             | None => Thrown (SyntaxError (collect out))
             end
      else Thrown (ExitError code)
  end.

Definition settle_stdout (c : Child) : Outcome Doc :=
  match c with
  | SpawnThrows => Thrown SpawnError
  | NeverCloses => Stuck
  | Closes code out _ =>
      if decide (code = Some 0%Z) then
        match JSON_parse (collect out) with
        | Some d => Returned d
        | None => Thrown (SyntaxError (collect out))
        end
      else Thrown (ExitError code)
  end.

Definition respond (label : string) (ok : Doc -> Response) (fail : Response)
    (o : Outcome Doc) : Outcome Response * list Event :=
  match o with
  | Returned d => (Returned (ok d), [])
  | Thrown e => (Returned fail, [ConsoleError label e])
  | Stuck => (Stuck, [])
  end.

(** The tail shared by the two [POST] handlers, as they spell it out. *)
Definition relay (w : World) (args : list Value) (ok : Doc -> Response) : Async Response :=
  pythonProcess ← spawn w "python" args;
  '(result, error) ← wait_close pythonProcess;
  if truthy_str error then throw (StderrError error)
  else
    r ← parse result;
    mret (ok r).

End WithRuntime.

End Relay.

(** ** The inference relay: [POST /api/infer] *)

Module Infer.
Import Js Relay.

Section WithRuntime.
Context {rt : Runtime}.

(** [`${patientId}_${Date.now()}_${image.name}`] *)
Definition fileName (patientId : Value) (now : Z) (image : Value) : string :=
  to_string patientId +:+ "_" +:+ number_to_string now +:+ "_" +:+ name_of image.

Definition missing_fields : Response :=
  {| body := [("success", FBool false); ("error", FStr "Missing required fields")];
     status := 400 |}.

Definition success (analysis : Doc) (fileName : string) : Response :=
  {| body := [("success", FBool true); ("result", FDoc analysis);
              ("imagePath", FStr fileName)];
     status := 200 |}.

Definition failure : Response :=
  {| body := [("success", FBool false); ("error", FStr "Inference failed")];
     status := 500 |}.

Definition POST (w : World) (req : Request) : Async Response :=
  try_catch
    (formData ← req_formData req;
     let image := get formData "image" in
     let imageType := get formData "type" in
     let patientName := get formData "patientName" in
     let patientId := get formData "patientId" in
     if negb (truthy image) || negb (truthy imageType) then
       mret missing_fields
     else
       let uploadsDir := path_join [cwd w; "uploads"] in
       mkdir w uploadsDir ;;
       buffer ← arrayBuffer image;
       let fileName := fileName patientId (now w) image in
       let imagePath := path_join [uploadsDir; fileName] in
       writeFile w imagePath buffer ;;
       pythonProcess ← spawn w "python"
         [Some (EStr (path_join [cwd w; "fl-backend/server/inference.py"]));
          Some (EStr "--image_path"); Some (EStr imagePath);
          Some (EStr "--image_type"); imageType;
          Some (EStr "--patient_id"); patientId;
          Some (EStr "--patient_name"); patientName];
       '(result, error) ← wait_close pythonProcess;
       if truthy_str error then throw (StderrError error)
       else
         analysis ← parse result;
         mret (success analysis fileName))
    (fun error =>
       console_error "Inference error:" error ;;
       mret failure).

(** *** The paths through the handler

    Each constructor is one way [POST] can run: the conditions under which
    it is taken, the response and the effects in order. *)

Definition spawn_args (w : World) (fd : FormData) (imagePath : string) : list Value :=
  [Some (EStr (path_join [cwd w; "fl-backend/server/inference.py"]));
   Some (EStr "--image_path"); Some (EStr imagePath);
   Some (EStr "--image_type"); get fd "type";
   Some (EStr "--patient_id"); get fd "patientId";
   Some (EStr "--patient_name"); get fd "patientName"].

Inductive Path (w : World) : Request -> Outcome Response * list Event -> Prop :=
| unreadable :
    Path w Unreadable
      (Returned failure, [ConsoleError "Inference error:" BodyError])
| rejected fd :
    truthy (get fd "image") = false \/ truthy (get fd "type") = false ->
    Path w (Multipart fd) (Returned missing_fields, [])
| mkdir_failed fd code :
    truthy (get fd "image") = true -> truthy (get fd "type") = true ->
    mkdir_result w (path_join [cwd w; "uploads"]) = Some code ->
    Path w (Multipart fd)
      (Returned failure,
       [Mkdir (path_join [cwd w; "uploads"]);
        ConsoleError "Inference error:" (FsError code)])
| not_a_file fd s :
    get fd "image" = Some (EStr s) -> truthy (get fd "image") = true ->
    truthy (get fd "type") = true ->
    mkdir_result w (path_join [cwd w; "uploads"]) = None ->
    Path w (Multipart fd)
      (Returned failure,
       [Mkdir (path_join [cwd w; "uploads"]);
        ConsoleError "Inference error:" (TypeError "arrayBuffer is not a function")])
| write_failed fd name content code :
    let uploadsDir := path_join [cwd w; "uploads"] in
    let imagePath :=
      path_join [uploadsDir; fileName (get fd "patientId") (now w) (get fd "image")] in
    get fd "image" = Some (EFile name content) -> truthy (get fd "type") = true ->
    mkdir_result w uploadsDir = None ->
    writeFile_result w imagePath content = Some code ->
    Path w (Multipart fd)
      (Returned failure,
       [Mkdir uploadsDir; WriteFile imagePath content;
        ConsoleError "Inference error:" (FsError code)])
| relayed fd name content :
    let uploadsDir := path_join [cwd w; "uploads"] in
    let file := fileName (get fd "patientId") (now w) (get fd "image") in
    let imagePath := path_join [uploadsDir; file] in
    let args := spawn_args w fd imagePath in
    let r := respond "Inference error:" (fun d => success d file) failure
               (settle (child w "python" args)) in
    get fd "image" = Some (EFile name content) -> truthy (get fd "type") = true ->
    mkdir_result w uploadsDir = None ->
    writeFile_result w imagePath content = None ->
    Path w (Multipart fd)
      (r.1, [Mkdir uploadsDir; WriteFile imagePath content; Spawn "python" args] ++ r.2).

End WithRuntime.

End Infer.

(** ** The training relay: [GET] and [POST /api/train] *)

Module Train.
Import Js Relay.

Section WithRuntime.
Context {rt : Runtime}.

Definition status_ok (st : Doc) : Response :=
  {| body := [("success", FBool true); ("status", FDoc st)]; status := 200 |}.

Definition status_failure : Response :=
  {| body := [("success", FBool false); ("error", FStr "Failed to get training status")];
     status := 500 |}.

Definition result_ok (r : Doc) : Response :=
  {| body := [("success", FBool true); ("result", FDoc r)]; status := 200 |}.

Definition failure : Response :=
  {| body := [("success", FBool false); ("error", FStr "Training operation failed")];
     status := 500 |}.

Definition cli (w : World) : Value :=
  Some (EStr (path_join [cwd w; "fl-backend/server/cli.py"])).

Definition GET (w : World) (req : Request) : Async Response :=
  try_catch
    (pythonProcess ← spawn w "python" [cli w; Some (EStr "--mode"); Some (EStr "status")];
     result ← wait_close_stdout pythonProcess;
     st ← parse result;
     mret (status_ok st))
    (fun error =>
       console_error "Error getting training status:" error ;;
       mret status_failure).

(** [mkdir] with [recursive: true]; an [EEXIST] rejection is swallowed. *)
Definition createTempDir (w : World) (dirPath : string) : Async unit :=
  try_catch (mkdir w dirPath)
    (fun error =>
       match error with
       | FsError code => if String.eqb code "EEXIST" then mret tt else throw error
       | _ => throw error
       end).

(** [`update_${clientId}_${Date.now()}.pt`] *)
Definition updateName (clientId : Value) (now : Z) : string :=
  "update_" +:+ to_string clientId +:+ "_" +:+ number_to_string now +:+ ".pt".

Definition POST (w : World) (req : Request) : Async Response :=
  try_catch
    (formData ← req_formData req;
     let action := get formData "action" in
     let clientId := get formData "clientId" in
     let modelUpdate := get formData "modelUpdate" in
     let tempDir := path_join [cwd w; "temp"] in
     createTempDir w tempDir ;;
     let args := [cli w; Some (EStr "--mode"); action;
                  Some (EStr "--client_id"); clientId] in
     args ← (if truthy modelUpdate then
               let updatePath := path_join [tempDir; updateName clientId (now w)] in
               buffer ← arrayBuffer modelUpdate;
               writeFile w updatePath buffer ;;
               mret (args ++ [Some (EStr "--update_path"); Some (EStr updatePath)])
             else mret args);
     pythonProcess ← spawn w "python" args;
     '(result, error) ← wait_close pythonProcess;
     if truthy_str error then throw (StderrError error)
     else
       r ← parse result;
       mret (result_ok r))
    (fun error =>
       console_error "Training error:" error ;;
       mret failure).

(** *** The paths through [POST] *)

Definition base_args (w : World) (fd : FormData) : list Value :=
  [cli w; Some (EStr "--mode"); get fd "action";
   Some (EStr "--client_id"); get fd "clientId"].

(** [createTempDir] went through: the directory was made, or [mkdir]
    rejected with [EEXIST]. *)
Definition temp_ready (w : World) : Prop :=
  mkdir_result w (path_join [cwd w; "temp"]) = None \/
  mkdir_result w (path_join [cwd w; "temp"]) = Some "EEXIST".

Inductive Path (w : World) : Request -> Outcome Response * list Event -> Prop :=
| unreadable :
    Path w Unreadable
      (Returned failure, [ConsoleError "Training error:" BodyError])
| mkdir_failed fd code :
    mkdir_result w (path_join [cwd w; "temp"]) = Some code -> code <> "EEXIST" ->
    Path w (Multipart fd)
      (Returned failure,
       [Mkdir (path_join [cwd w; "temp"]);
        ConsoleError "Training error:" (FsError code)])
| not_a_file fd s :
    temp_ready w ->
    get fd "modelUpdate" = Some (EStr s) -> s <> "" ->
    Path w (Multipart fd)
      (Returned failure,
       [Mkdir (path_join [cwd w; "temp"]);
        ConsoleError "Training error:" (TypeError "arrayBuffer is not a function")])
| write_failed fd name content code :
    let tempDir := path_join [cwd w; "temp"] in
    let updatePath := path_join [tempDir; updateName (get fd "clientId") (now w)] in
    temp_ready w ->
    get fd "modelUpdate" = Some (EFile name content) ->
    writeFile_result w updatePath content = Some code ->
    Path w (Multipart fd)
      (Returned failure,
       [Mkdir tempDir; WriteFile updatePath content;
        ConsoleError "Training error:" (FsError code)])
| relayed_update fd name content :
    let tempDir := path_join [cwd w; "temp"] in
    let updatePath := path_join [tempDir; updateName (get fd "clientId") (now w)] in
    let args := base_args w fd ++ [Some (EStr "--update_path"); Some (EStr updatePath)] in
    let r := respond "Training error:" result_ok failure (settle (child w "python" args)) in
    temp_ready w ->
    get fd "modelUpdate" = Some (EFile name content) ->
    writeFile_result w updatePath content = None ->
    Path w (Multipart fd)
      (r.1, [Mkdir tempDir; WriteFile updatePath content; Spawn "python" args] ++ r.2)
| relayed fd :
    let tempDir := path_join [cwd w; "temp"] in
    let args := base_args w fd in
    let r := respond "Training error:" result_ok failure (settle (child w "python" args)) in
    temp_ready w ->
    truthy (get fd "modelUpdate") = false ->
    Path w (Multipart fd) (r.1, [Mkdir tempDir; Spawn "python" args] ++ r.2).

End WithRuntime.

End Train.

(** ** The browser state shared by the client-side views *)

Module Browser.

(** A cookie as [setCookie] stores it: the value and the two attributes the
    application sets ([maxAge] in seconds). *)
Record Cookie := {
  value : string;
  maxAge : Z;
  path : string;
}.

Record State := {
  cookies : gmap string Cookie;
  location : string;              (* the route the router shows *)
  console : list string;          (* console.log output, oldest first *)
}.

Definition setCookie (key val : string) (age : Z) (scope : string) (b : State) : State :=
  {| cookies := <[key := {| value := val; maxAge := age; path := scope |}]> (cookies b);
     location := location b;
     console := console b |}.

(** [getCookie(key)]: the stored value, or [undefined]. *)
Definition getCookie (key : string) (b : State) : option string :=
  value <$> cookies b !! key.

(** [router.push(href)] *)
Definition push (href : string) (b : State) : State :=
  {| cookies := cookies b; location := href; console := console b |}.

Definition console_log (msg : string) (b : State) : State :=
  {| cookies := cookies b; location := location b; console := console b ++ [msg] |}.

End Browser.

(** ** The login view ([app/page.tsx]) *)

Module Login.
Import Browser.

Inductive UserRole := doctor | radiologist.

Definition role_string (r : UserRole) : string :=
  match r with
  | doctor => "doctor"
  | radiologist => "radiologist"
  end.

Record State := {
  email : string;
  password : string;
  selectedRole : option UserRole;
  error : string;
}.

Definition init : State :=
  {| email := ""; password := ""; selectedRole := None; error := "" |}.

Definition setError (msg : string) (st : State) : State :=
  {| email := email st; password := password st;
     selectedRole := selectedRole st; error := msg |}.

Definition handleSubmit (st : State) (b : Browser.State) : State * Browser.State :=
  match selectedRole st with
  | None => (setError "Please select a role" st, b)
  | Some role =>
      if Js.truthy_str (email st) && Js.truthy_str (password st) then
        (st, push "/dashboard" (setCookie "userRole" (role_string role) (60 * 60 * 24) "/" b))
      else (st, b)
  end.

(** [{error && <div>{error}</div>}] *)
Definition error_banner (st : State) : option string :=
  if Js.truthy_str (error st) then Some (error st) else None.

End Login.

(** ** The sidebar ([dashboard/components/Sidebar.tsx]) *)

Module Sidebar.

Record MenuItem := {
  icon : string;
  label : string;
  href : string;
  roles : list string;
}.

Definition menuItems : list MenuItem := [
  {| icon := "Home"; label := "Home"; href := "/dashboard";
     roles := ["doctor"; "radiologist"] |};
  {| icon := "Clock"; label := "Recent Uploads"; href := "/dashboard/recent-uploads";
     roles := ["doctor"; "radiologist"] |};
  {| icon := "Upload"; label := "Upload Images"; href := "/dashboard/upload";
     roles := ["radiologist"] |};
  {| icon := "Calendar"; label := "Book Appointment"; href := "https://www.practo.com/consult";
     roles := ["doctor"; "radiologist"] |};
  {| icon := "ChartBar"; label := "Analytics"; href := "/dashboard/analytics";
     roles := ["doctor"; "radiologist"] |};
  {| icon := "Settings"; label := "Settings"; href := "/dashboard/settings";
     roles := ["doctor"; "radiologist"] |}
].

(** One rendered [<Link>]. *)
Record NavLink := {
  key : string;
  to : string;
  target : option string;
  rel : option string;
  active : bool;                  (* highlighted: pathname === item.href *)
  shown_icon : string;
  text : string;
}.

Definition render_item (pathname : string) (item : MenuItem) : NavLink :=
  {| key := href item;
     to := href item;
     target := if String.prefix "http" (href item) then Some "_blank" else None;
     rel := if String.prefix "http" (href item) then Some "noopener noreferrer" else None;
     active := String.eqb pathname (href item);
     shown_icon := icon item;
     text := label item |}.

(** [menuItems.filter((item) => item.roles.includes(role))] *)
Definition visible (role : string) : list MenuItem :=
  filter (fun item => role ∈ roles item) menuItems.

(** The [<nav>] of the sidebar. *)
Definition nav (role pathname : string) : list NavLink :=
  render_item pathname <$> visible role.

(** The [onClick] of the logout button. *)
Definition logout_onClick (b : Browser.State) : Browser.State :=
  Browser.console_log "Logout clicked" b.

End Sidebar.

(** ** The dashboard shell ([app/dashboard/layout.tsx]) *)

Module DashboardLayout.
Import Browser.

Inductive View :=
| Loading
| Shell (nav : list Sidebar.NavLink).   (* sidebar next to the page's children *)

(** The component state: [useState<UserRole | null>(null)]. *)
Definition State := option string.

Definition init : State := None.

(** [!role] for a cookie value. *)
Definition absent (role : option string) : bool :=
  match role with
  | None => true
  | Some s => String.eqb s ""
  end.

(** The mount effect. *)
Definition effect (st : State) (b : Browser.State) : State * Browser.State :=
  let role := getCookie "userRole" b in
  if absent role then (st, push "/" b)
  else (role, b).

Definition render (st : State) (b : Browser.State) : View :=
  if absent st then Loading
  else match st with
       | Some userRole => Shell (Sidebar.nav userRole (location b))
       | None => Loading
       end.

(** Loading the shell: first render, mount effect, render again. *)
Definition load (b : Browser.State) : View * (State * Browser.State) :=
  let '(st, b') := effect init b in
  (render st b', (st, b')).

(** A click on the sidebar's logout button, seen from the shell. *)
Definition click_logout (p : State * Browser.State) : State * Browser.State :=
  (p.1, Sidebar.logout_onClick p.2).

End DashboardLayout.

(** ** Pan and zoom in the patient-detail view *)

Module PatientDetail.

Inductive Direction := left | right.

Record State := {
  imageZoomed : bool;
  imagePosition : Z;
}.

Definition init : State := {| imageZoomed := false; imagePosition := 0 |}.

Definition handlePan (direction : Direction) (st : State) : State :=
  let prev := imagePosition st in
  let newPosition :=
    match direction with
    | left => (prev + 50)%Z
    | right => (prev - 50)%Z
    end in
  {| imageZoomed := imageZoomed st;
     imagePosition := Z.max (Z.min newPosition 0) (-200) |}.

(** The zoom button: [setImageZoomed(!imageZoomed); setImagePosition(0)]. *)
Definition toggleZoom (st : State) : State :=
  {| imageZoomed := negb (imageZoomed st); imagePosition := 0 |}.

(** [disabled={imagePosition >= 0}] and [disabled={imagePosition <= -200}] *)
Definition left_disabled (st : State) : bool := (0 <=? imagePosition st)%Z.
Definition right_disabled (st : State) : bool := (imagePosition st <=? -200)%Z.

(** The horizontal offset the image is drawn at. *)
Definition offset (st : State) : Z :=
  if imageZoomed st then imagePosition st else 0%Z.

Inductive Op := PanLeft | PanRight | ZoomToggle.

Definition step (st : State) (op : Op) : State :=
  match op with
  | PanLeft => handlePan left st
  | PanRight => handlePan right st
  | ZoomToggle => toggleZoom st
  end.

Definition steps (ops : list Op) (st : State) : State := foldl step st ops.

(** The interval the clamp in [handlePan] keeps the position in. *)
Definition in_range (st : State) : Prop := (-200 <= imagePosition st <= 0)%Z.

End PatientDetail.

(** ** Concrete surroundings for closed examples *)

Module Demo.
Import Js Relay.

(** The documents the stand-in parser knows. *)
Inductive Json := JNull | JTrue | JFalse | JEmptyObject | JEmptyArray.

(** A stand-in for [JSON.parse] that accepts the five shortest documents and
    rejects everything else; on the texts it accepts it agrees with
    [JSON.parse].  It only instantiates [Runtime] in closed examples: every
    theorem below holds for an arbitrary parser. *)
Definition parse_literal (text : string) : option Json :=
  if String.eqb text "null" then Some JNull
  else if String.eqb text "true" then Some JTrue
  else if String.eqb text "false" then Some JFalse
  else if String.eqb text "{}" then Some JEmptyObject
  else if String.eqb text "[]" then Some JEmptyArray
  else None.

(** [path.join] on segments that need no normalisation. *)
Definition join (parts : list string) : string := String.concat "/" parts.

Definition runtime : Runtime :=
  {| Doc := Json; JSON_parse := parse_literal; path_join := join |}.

(** A world whose file system accepts every operation and whose child
    processes all behave as [c]. *)
Definition world (c : Child) : World :=
  {| cwd := "/srv/app";
     now := 1700000000000;
     mkdir_result := fun _ => None;
     writeFile_result := fun _ _ => None;
     child := fun _ _ => c |}.

Definition scan_upload : FormData :=
  [("image", EFile "scan.dcm" [Byte.x44; Byte.x49; Byte.x43; Byte.x4d]);
   ("type", EStr "ct");
   ("patientName", EStr "Jane Smith");
   ("patientId", EStr "42")].

(** An upload without the [image] part. *)
Definition upload_without_image : FormData :=
  [("type", EStr "ct"); ("patientName", EStr "Jane Smith"); ("patientId", EStr "42")].

(** Training requests: one naming its action, one that does not. *)
Definition start_round : FormData :=
  [("action", EStr "start_round"); ("clientId", EStr "hospital-a")].

Definition without_action : FormData :=
  [("clientId", EStr "hospital-a")].

(** Children: a clean success, a success that also warns on [stderr], and
    a failure. *)
Definition clean_exit : Child := Closes (Some 0%Z) ["{"; "}"] [].
Definition noisy_exit : Child := Closes (Some 0%Z) ["{}"] ["UserWarning: falling back to CPU"].
Definition usage_error : Child := Closes (Some 2%Z) [] ["usage: cli.py --mode MODE"].

Definition browser (jar : gmap string Browser.Cookie) : Browser.State :=
  {| Browser.cookies := jar; Browser.location := "/dashboard"; Browser.console := [] |}.

(** A browser holding the role cookie as the login view sets it, and one
    holding no cookie. *)
Definition signed_in (role : string) : Browser.State :=
  browser {[ "userRole" :=
             {| Browser.value := role; Browser.maxAge := 86400; Browser.path := "/" |} ]}.

Definition signed_out : Browser.State := browser ∅.

Definition filled_form (role : option Login.UserRole) : Login.State :=
  {| Login.email := "doctor@hospital.com"; Login.password := "hunter2";
     Login.selectedRole := role; Login.error := "" |}.

End Demo.

(** * Further components

    The rest of the handlers' surroundings: how responses are read and what
    a run leaves behind, the two upload forms, the settings page, the report
    lookup of the patient-detail view, and the login form as a sequence of
    events. *)

(** ** Reading responses and traces *)

Module Envelope.
Import Relay.

Definition is_console (ev : Event) : bool :=
  match ev with ConsoleError _ _ => true | _ => false end.

(** What a run did to the file system and the process table, in order. *)
Definition io (t : list Event) : list Event :=
  List.filter (fun ev => negb (is_console ev)) t.

(** What a run wrote with [console.error], in order. *)
Definition logged (t : list Event) : list Event :=
  List.filter is_console t.

(** Failures, and only failures, are reported on the console, once. *)
Definition logs_failures {A} (failed : A -> Prop) (res : Outcome A * list Event) : Prop :=
  forall r, res.1 = Returned r ->
    (failed r -> exists label e, logged res.2 = [ConsoleError label e])
    /\ (~ failed r -> logged res.2 = []).

Section WithRuntime.
Context {rt : Runtime}.

(** [data.key] on a parsed body: the field's value, or [undefined]. *)
Fixpoint field (k : string) (fields : list (string * Field)) : option Field :=
  match fields with
  | [] => None
  | (k', v) :: rest => if String.eqb k' k then Some v else field k rest
  end.

(** The status line and the body tell the same story: 200 goes with
    [success: true] and no [error]; 400 and 500 go with [success: false], a
    non-empty [error] message and no [result]. *)
Definition agrees (r : Response) : Prop :=
  (status r = 200%Z /\ field "success" (body r) = Some (FBool true)
   /\ field "error" (body r) = None)
  \/ ((status r = 400%Z \/ status r = 500%Z)
      /\ field "success" (body r) = Some (FBool false)
      /\ field "result" (body r) = None
      /\ exists msg, field "error" (body r) = Some (FStr msg) /\ msg <> "").

End WithRuntime.

End Envelope.

(** ** Files picked in the browser *)

Module Dom.

Record File := {
  name : string;
  bytes : list Byte.byte;
}.

(** The entry [formData.append(key, file)] stores. *)
Definition entry (f : File) : Js.Entry := Js.EFile (name f) (bytes f).

(** [formData.append(key, value)] *)
Definition append (fd : Js.FormData) (key : string) (v : Js.Entry) : Js.FormData :=
  fd ++ [(key, v)].

(** What a client-side handler does besides updating its state. *)
Inductive Effect :=
| Log (label : string)
| Fetch (url method : string) (body : Js.FormData).

Definition is_fetch (e : Effect) : bool :=
  match e with Fetch _ _ _ => true | Log _ => false end.

End Dom.

(** ** The analysis form ([MedicalAnalysis] in [components/upload-images.tsx]) *)

Module MedicalAnalysis.
Import Js Relay Envelope Dom.

Inductive ImageType := ct | mri.

Definition type_string (t : ImageType) : string :=
  match t with ct => "ct" | mri => "mri" end.

Section WithRuntime.
Context {rt : Runtime}.

(** [!!d] for a parsed document; not decided by the repository. *)
Variable doc_truthy : Doc -> bool.

Record State := {
  selectedFile : option File;
  imageType : ImageType;
  analysis : option Field;        (* [null]/[undefined] is [None] *)
  loading : bool;
  error : option Field;
}.

Definition init : State :=
  {| selectedFile := None; imageType := ct; analysis := None;
     loading := false; error := None |}.

Definition setSelectedFile (f : File) (st : State) : State :=
  {| selectedFile := Some f; imageType := imageType st; analysis := analysis st;
     loading := loading st; error := error st |}.
Definition setImageType (t : ImageType) (st : State) : State :=
  {| selectedFile := selectedFile st; imageType := t; analysis := analysis st;
     loading := loading st; error := error st |}.
Definition setAnalysis (a : option Field) (st : State) : State :=
  {| selectedFile := selectedFile st; imageType := imageType st; analysis := a;
     loading := loading st; error := error st |}.
Definition setLoading (l : bool) (st : State) : State :=
  {| selectedFile := selectedFile st; imageType := imageType st; analysis := analysis st;
     loading := l; error := error st |}.
Definition setError (e : option Field) (st : State) : State :=
  {| selectedFile := selectedFile st; imageType := imageType st; analysis := analysis st;
     loading := loading st; error := e |}.

(** [event.target.files?.[0]] *)
Definition first_file (files : option (list File)) : option File :=
  match files with
  | Some (f :: _) => Some f
  | _ => None
  end.

Definition handleFileChange (files : option (list File)) (st : State) : State :=
  let st := setError None st in
  match first_file files with
  | Some file => setSelectedFile file st
  | None => st
  end.

(** What [await fetch(...)] followed by [await response.json()] comes to:
    the parsed body (an object, given by its fields), a rejection (with the
    error's [message] when it is an [Error]), or a promise that never
    settles. *)
Inductive Fetched :=
| Resolved (data : list (string * Field))
| Rejected (message : option string)
| Unsettled.

Definition Network := string -> string -> FormData -> Fetched.

(** Truthiness of a field read off the body. *)
Definition field_truthy (v : option Field) : bool :=
  match v with
  | None => false
  | Some (FBool b) => b
  | Some (FStr s) => truthy_str s
  | Some (FDoc d) => doc_truthy d
  end.

(** [a || b] *)
Definition or_else (a : option Field) (b : Field) : option Field :=
  if field_truthy a then a else Some b.

(** The state once the handler has run as far as it ever will, and the
    request it made. *)
Definition handleAnalyze (net : Network) (st : State) : State * list Effect :=
  match selectedFile st with
  | None => (st, [])
  | Some file =>
      let st := setLoading true st in
      let formData := append (append [] "image" (entry file))
                        "type" (EStr (type_string (imageType st))) in
      let sent := [Fetch "/api/infer" "POST" formData] in
      match net "/api/infer" "POST" formData with
      | Resolved data =>
          let st :=
            if field_truthy (field "success" data) then
              setAnalysis (field "result" data) st
            else
              setError (or_else (field "error" data) (FStr "Analysis failed")) st in
          (setLoading false st, sent)
      | Rejected message =>
          let st :=
            setError (Some (FStr (default "An error occurred" message))) st in
          (setLoading false st, sent)
      | Unsettled => (st, sent)
      end
  end.

(** [disabled={!selectedFile || loading}] *)
Definition analyze_disabled (st : State) : bool :=
  match selectedFile st with
  | None => true
  | Some _ => loading st
  end.

(** What the user can do on the form.  A click on a disabled button does
    not reach the handler; a request is taken to have settled, if it ever
    does, before the next event. *)
Inductive Event :=
| PickFiles (files : option (list File))
| SelectType (t : ImageType)
| Analyze.

Definition step (net : Network) (p : State * list Effect) (ev : Event) :
    State * list Effect :=
  let '(st, sent) := p in
  match ev with
  | PickFiles files => (handleFileChange files st, sent)
  | SelectType t => (setImageType t st, sent)
  | Analyze =>
      if analyze_disabled st then (st, sent)
      else let '(st', effects) := handleAnalyze net st in (st', sent ++ effects)
  end.

Definition play (net : Network) (events : list Event) (st : State) :
    State * list Effect :=
  foldl (step net) (st, []) events.

(** The deployment behind [fetch]: the inference handler run in world [w].
    The body travels as [JSON.stringify] wrote it, so the client reads the
    fields the handler put in; [fetch] resolves whatever the status. *)
Definition deployed (w : World) : Network :=
  fun _ _ formData =>
    match (run (Infer.POST w (Multipart formData))).1 with
    | Returned r => Resolved (body r)
    | Thrown _ => Rejected None
    | Stuck => Unsettled
    end.

End WithRuntime.

End MedicalAnalysis.

(** ** The upload form ([UploadImage] in [components/upload-images.tsx]) *)

Module UploadImage.
Import Dom.

Record UploadedImage := {
  file : File;
  preview : string;
}.

Section WithBrowser.

(** [URL.createObjectURL]: the URL handed out by the [n]-th call. *)
Variable object_url : nat -> string.

Record State := {
  images : list UploadedImage;
  patientName : string;
  patientId : string;
  imageType : string;
  urls_created : nat;             (* calls to [URL.createObjectURL] so far *)
}.

Definition init : State :=
  {| images := []; patientName := ""; patientId := ""; imageType := "";
     urls_created := 0 |}.

(** [files.map(file => ({ file, preview: URL.createObjectURL(file) }))] *)
Definition previews (from : nat) (files : list File) : list UploadedImage :=
  imap (fun i f => {| file := f; preview := object_url (from + i) |}) files.

Definition handleImageUpload (files : option (list File)) (st : State) : State :=
  let files := default [] files in
  let newImages := previews (urls_created st) files in
  {| images := images st ++ newImages;
     patientName := patientName st; patientId := patientId st;
     imageType := imageType st;
     urls_created := urls_created st + length files |}.

(** [prev.filter((_, i) => i !== index)] *)
Fixpoint filter_index {A} (keep : nat -> bool) (from : nat) (l : list A) : list A :=
  match l with
  | [] => []
  | x :: rest =>
      if keep from then x :: filter_index keep (S from) rest
      else filter_index keep (S from) rest
  end.

Definition removeImage (index : nat) (st : State) : State :=
  {| images := filter_index (fun i => negb (Nat.eqb i index)) 0 (images st);
     patientName := patientName st; patientId := patientId st;
     imageType := imageType st; urls_created := urls_created st |}.

Definition handleSubmit (st : State) : State * list Effect :=
  ({| images := []; patientName := ""; patientId := ""; imageType := "";
      urls_created := urls_created st |},
   [Log "Submitting:"]).

Inductive Event :=
| PickFiles (files : option (list File))
| Remove (index : nat)
| TypeName (s : string)
| TypeId (s : string)
| SelectType (s : string)
| Submit.

Definition step (p : State * list Effect) (ev : Event) : State * list Effect :=
  let '(st, done) := p in
  match ev with
  | PickFiles files => (handleImageUpload files st, done)
  | Remove index => (removeImage index st, done)
  | TypeName s =>
      ({| images := images st; patientName := s; patientId := patientId st;
          imageType := imageType st; urls_created := urls_created st |}, done)
  | TypeId s =>
      ({| images := images st; patientName := patientName st; patientId := s;
          imageType := imageType st; urls_created := urls_created st |}, done)
  | SelectType s =>
      ({| images := images st; patientName := patientName st;
          patientId := patientId st; imageType := s;
          urls_created := urls_created st |}, done)
  | Submit => let '(st', effects) := handleSubmit st in (st', done ++ effects)
  end.

Definition play (events : list Event) (st : State) : State * list Effect :=
  foldl step (st, []) events.

End WithBrowser.

End UploadImage.

(** ** The settings page ([SettingsPage]) *)

Module Settings.

Record Notifications := {
  email : bool;
  desktop : bool;
  updates : bool;
}.

Record State := {
  notifications : Notifications;
  theme : string;
}.

Definition init : State :=
  {| notifications := {| email := true; desktop := true; updates := false |};
     theme := "light" |}.

Inductive Channel := Email | Desktop | Updates.

Definition enabled (c : Channel) (n : Notifications) : bool :=
  match c with
  | Email => email n
  | Desktop => desktop n
  | Updates => updates n
  end.

(** [setNotifications(prev => ({ ...prev, <channel>: !prev.<channel> }))] *)
Definition toggle (c : Channel) (st : State) : State :=
  let prev := notifications st in
  {| notifications :=
       match c with
       | Email => {| email := negb (email prev); desktop := desktop prev;
                     updates := updates prev |}
       | Desktop => {| email := email prev; desktop := negb (desktop prev);
                       updates := updates prev |}
       | Updates => {| email := email prev; desktop := desktop prev;
                       updates := negb (updates prev) |}
       end;
     theme := theme st |}.

Definition setTheme (t : string) (st : State) : State :=
  {| notifications := notifications st; theme := t |}.

Inductive Event :=
| Toggle (c : Channel)
| PickTheme (t : string).

Definition step (st : State) (ev : Event) : State :=
  match ev with
  | Toggle c => toggle c st
  | PickTheme t => setTheme t st
  end.

Definition play (events : list Event) (st : State) : State := foldl step st events.

Definition is_toggle (c : Channel) (ev : Event) : bool :=
  match ev, c with
  | Toggle Email, Email | Toggle Desktop, Desktop | Toggle Updates, Updates => true
  | _, _ => false
  end.

(** How often [c] was toggled. *)
Definition toggles (c : Channel) (events : list Event) : nat :=
  length (List.filter (is_toggle c) events).

End Settings.

(** ** The report table of the patient-detail view *)

Module PatientReports.

Record PatientReport := {
  id : string;
  patientName : string;
  patientAge : Z;
  patientGender : string;
  uploadTime : string;
  imageType : string;
  analysis : string;
  diagnosis : string;
  recommendations : string;
  scanImage : string;
}.

Definition patientReports : list PatientReport := [
  {|
     id := "1";
     patientName := "John Doe";
     patientAge := 45%Z;
     patientGender := "Male";
     uploadTime := "2023-05-10 14:30";
     imageType := "MRI";
     analysis := "Completed";
     diagnosis := "Early-stage brain tumor detected in the frontal lobe. No signs of metastasis.";
     recommendations := "Immediate consultation with a neurosurgeon. Follow-up MRI in 2 weeks. Consider biopsy for further analysis.";
     scanImage := "https://hebbkx1anhila5yf.public.blob.vercel-storage.com/MRI-1-Ddg9I6Yyk3tahFy9FRDCQTtolCgO55.jpeg" |};
  {|
     id := "2";
     patientName := "Jane Smith";
     patientAge := 32%Z;
     patientGender := "Female";
     uploadTime := "2023-05-10 15:45";
     imageType := "CT Scan (Lungs)";
     analysis := "In Progress";
     diagnosis := "Pending final analysis. Preliminary results show possible early-stage lung nodules.";
     recommendations := "Await final analysis. Follow up with pulmonologist. Consider PET scan for further evaluation.";
     scanImage := "https://hebbkx1anhila5yf.public.blob.vercel-storage.com/CT%20scan-1-ngkmX0x8k3W2YwsHMntHukmgi4dRTf.jpeg" |};
  {|
     id := "3";
     patientName := "Bob Johnson";
     patientAge := 58%Z;
     patientGender := "Male";
     uploadTime := "2023-05-10 16:20";
     imageType := "MRI";
     analysis := "Completed";
     diagnosis := "Multiple sclerosis (MS) lesions detected in the brain. White matter changes observed.";
     recommendations := "Urgent consultation with neurologist. Consider starting immunomodulatory therapy. Schedule follow-up MRI in 3 months.";
     scanImage := "https://hebbkx1anhila5yf.public.blob.vercel-storage.com/MRI-3-tu1SkmKNfamPISZCQZOR1Fz3KwV47E.jpeg" |};
  {|
     id := "4";
     patientName := "Alice Brown";
     patientAge := 27%Z;
     patientGender := "Female";
     uploadTime := "2023-05-10 17:10";
     imageType := "CT Scan (Lungs)";
     analysis := "In Progress";
     diagnosis := "Pending final analysis. Initial review suggests possible pneumonia in both lungs with characteristic ground-glass opacities.";
     recommendations := "Await final analysis. Start broad-spectrum antibiotics. Monitor symptoms closely. Follow up in 48 hours.";
     scanImage := "https://hebbkx1anhila5yf.public.blob.vercel-storage.com/CT%20scan-2-5ifoiJK6bbzXoMxs0QzyHGe2fxPx5X.jpeg" |};
  {|
     id := "5";
     patientName := "Charlie Davis";
     patientAge := 50%Z;
     patientGender := "Male";
     uploadTime := "2023-05-10 18:00";
     imageType := "MRI";
     analysis := "Completed";
     diagnosis := "Multiple sclerosis (MS) lesions detected in the brain. Disease appears to be in early stages with characteristic white matter lesions.";
     recommendations := "Consult with neurologist specializing in MS. Consider starting disease-modifying therapy. Schedule follow-up MRI in 3 months.";
     scanImage := "https://hebbkx1anhila5yf.public.blob.vercel-storage.com/MRI-4-5m1KQEQtYBsApdYxxJK6ISb1nhY19e.jpeg" |}
].

(** [reports.find((r) => r.id === id)] *)
Fixpoint find (reports : list PatientReport) (wanted : string) : option PatientReport :=
  match reports with
  | [] => None
  | r :: rest => if String.eqb (id r) wanted then Some r else find rest wanted
  end.

(** The mount effect: [setReport(foundReport || null)] for the route's id. *)
Definition effect (route_id : string) : option PatientReport :=
  find patientReports route_id.

Inductive View :=
| Loading
| Report (r : PatientReport).

Definition render (report : option PatientReport) : View :=
  match report with
  | None => Loading
  | Some r => Report r
  end.

End PatientReports.

(** ** The pan and zoom buttons as rendered *)

Module PatientDetailUI.
Import PatientDetail.

(** A click reaches its handler only if the button is on the page and not
    disabled: the two pan buttons are rendered while the image is zoomed,
    each with its own [disabled] condition; the zoom button is always
    there. *)
Definition click (st : State) (op : Op) : State :=
  match op with
  | PanLeft =>
      if imageZoomed st && negb (left_disabled st) then handlePan left st else st
  | PanRight =>
      if imageZoomed st && negb (right_disabled st) then handlePan right st else st
  | ZoomToggle => toggleZoom st
  end.

Definition clicks (ops : list Op) (st : State) : State := foldl click st ops.

(** The positions that are whole steps of 50 between the two ends. *)
Definition on_grid (x : Z) : Prop :=
  (x = 0 \/ x = -50 \/ x = -100 \/ x = -150 \/ x = -200)%Z.

End PatientDetailUI.

(** ** The login form as a sequence of events *)

Module LoginForm.
Import Login.

Inductive Event :=
| SelectRole (r : UserRole)
| TypeEmail (s : string)
| TypePassword (s : string)
| Submit.

Definition step (p : Login.State * Browser.State) (ev : Event) :
    Login.State * Browser.State :=
  let '(st, b) := p in
  match ev with
  | SelectRole r =>
      ({| email := email st; password := password st;
          selectedRole := Some r; error := error st |}, b)
  | TypeEmail s =>
      ({| email := s; password := password st;
          selectedRole := selectedRole st; error := error st |}, b)
  | TypePassword s =>
      ({| email := email st; password := s;
          selectedRole := selectedRole st; error := error st |}, b)
  | Submit => handleSubmit st b
  end.

Definition play (events : list Event) (p : Login.State * Browser.State) :
    Login.State * Browser.State :=
  foldl step p events.

End LoginForm.

(** ** More concrete surroundings *)

Module Samples.
Import Js Relay Dom.

(** A child that exits cleanly after printing something that is no JSON. *)
Definition chatty_exit : Child := Closes (Some 0%Z) ["Loading model..."] [].

(** Uploads whose [type] is empty, and whose [image] is text. *)
Definition upload_with_empty_type : FormData :=
  [("image", EFile "scan.dcm" [Byte.x44]); ("type", EStr ""); ("patientId", EStr "42")].

Definition upload_with_text_image : FormData :=
  [("image", EStr "scan.dcm"); ("type", EStr "ct"); ("patientId", EStr "42")].

(** A training request carrying a model update. *)
Definition submit_update : FormData :=
  [("action", EStr "submit_update"); ("clientId", EStr "hospital-a");
   ("modelUpdate", EFile "round3.pt" [Byte.x50; Byte.x4b])].

(** A world like [Demo.world], except that every [mkdir] is rejected with
    the given code. *)
Definition world_without_mkdir (code : string) (c : Child) : World :=
  {| cwd := "/srv/app";
     now := 1700000000000;
     mkdir_result := fun _ => Some code;
     writeFile_result := fun _ _ => None;
     child := fun _ _ => c |}.

Definition scan : File := {| name := "scan.dcm"; bytes := [Byte.x44; Byte.x49] |}.

(** The analysis form with a file picked and an old error and an old
    analysis still on screen. *)
Definition form_with_file : MedicalAnalysis.State (rt := Demo.runtime) :=
  {| MedicalAnalysis.selectedFile := Some scan;
     MedicalAnalysis.imageType := MedicalAnalysis.ct;
     MedicalAnalysis.analysis := Some (FDoc (rt := Demo.runtime) Demo.JEmptyArray);
     MedicalAnalysis.loading := false;
     MedicalAnalysis.error := Some (FStr (rt := Demo.runtime) "Inference failed") |}.

(** [!!d] on the stand-in documents. *)
Definition json_truthy (d : Demo.Json) : bool :=
  match d with
  | Demo.JNull | Demo.JFalse => false
  | _ => true
  end.

(** A network on which every request is rejected. *)
Definition offline : MedicalAnalysis.Network (rt := Demo.runtime) :=
  fun _ _ _ => MedicalAnalysis.Rejected (Some "Failed to fetch").

(** Object URLs numbered in the order they are handed out. *)
Definition numbered_url (n : nat) : string := "blob:" +:+ pretty n.

(** A browser whose role cookie holds an arbitrary value. *)
Definition with_role_cookie (v : string) : Browser.State := Demo.signed_in v.

(** The login form after a submit without a role. *)
Definition scolded_form : Login.State :=
  {| Login.email := ""; Login.password := ""; Login.selectedRole := None;
     Login.error := "Please select a role" |}.

End Samples.

(** * Properties *)

(** ** How the handlers run *)

(** Evaluate the monadic plumbing, leaving the world's answers in place. *)
Ltac async_eval :=
  cbv beta iota zeta delta
    [mbind mret Relay.Async_bind Relay.Async_ret Relay.throw Relay.never Relay.emit
     Relay.console_error Relay.try_catch Relay.respond fst snd];
  rewrite <- ?app_assoc; simpl.

Ltac inv_elem :=
  repeat match goal with
  | H : _ ∈ [] |- _ => by apply elem_of_nil in H
  | H : _ ∈ _ :: _ |- _ => apply elem_of_cons in H as [H|H]
  | H : _ ∈ _ ++ _ |- _ => apply elem_of_app in H as [H|H]
  end.

Section RelayRuns.
Import Js Relay.
Context {rt : Runtime}.

Lemma try_catch_bind {A B} (m : Async A) (k : A -> Async B) h t :
  try_catch (m ≫= k) h t =
  match m t with
  | (Returned a, t') => try_catch (k a) h t'
  | (Thrown e, t') => h e t'
  | (Stuck, t') => (Stuck, t')
  end.
Proof. unfold try_catch, mbind, Async_bind. by destruct (m t) as [[a|e|] t']. Qed.

Lemma mkdir_run w p t :
  mkdir w p t =
  (match mkdir_result w p with
   | None => Returned ()
   | Some code => Thrown (FsError code)
   end, t ++ [Mkdir p]).
Proof. unfold mkdir, mbind, Async_bind, emit. by destruct (mkdir_result w p). Qed.

Lemma writeFile_run w p data t :
  writeFile w p data t =
  (match writeFile_result w p data with
   | None => Returned ()
   | Some code => Thrown (FsError code)
   end, t ++ [WriteFile p data]).
Proof.
  unfold writeFile, mbind, Async_bind, emit. by destruct (writeFile_result w p data).
Qed.

Lemma createTempDir_run w p t :
  Train.createTempDir w p t =
  (match mkdir_result w p with
   | None => Returned ()
   | Some code =>
       if String.eqb code "EEXIST" then Returned () else Thrown (FsError code)
   end, t ++ [Mkdir p]).
Proof.
  unfold Train.createTempDir, try_catch. rewrite mkdir_run.
  destruct (mkdir_result w p) as [code|]; [|done].
  by destruct (String.eqb code "EEXIST").
Qed.

(** The shared tail, run inside the handler's [try]/[catch]: one [Spawn]
    event, then whatever [respond] makes of the settled child. *)
Lemma relay_run w args ok label fail t :
  try_catch (relay w args ok) (fun e => console_error label e ;; mret fail) t =
  let r := respond label ok fail (settle (child w "python" args)) in
  (r.1, t ++ Spawn "python" args :: r.2).
Proof.
  unfold relay, spawn, wait_close, parse, settle.
  destruct (child w "python" args) as [| |code out err]; async_eval; [done..|].
  destruct (decide (code = Some 0%Z)) as [->|Hcode]; async_eval; [|done].
  destruct (truthy_str (collect err)); async_eval; [done|].
  by destruct (JSON_parse (collect out)); async_eval.
Qed.

Lemma train_GET_run w req :
  run (Train.GET w req) =
  let args := [Train.cli w; Some (EStr "--mode"); Some (EStr "status")] in
  let r := respond "Error getting training status:" Train.status_ok Train.status_failure
             (settle_stdout (child w "python" args)) in
  (r.1, Spawn "python" args :: r.2).
Proof.
  unfold run, Train.GET, spawn, wait_close_stdout, parse, settle_stdout.
  destruct (child w "python" _) as [| |code out err]; async_eval; [done..|].
  destruct (decide (code = Some 0%Z)) as [->|Hcode]; async_eval; [|done].
  by destruct (JSON_parse (collect out)); async_eval.
Qed.

Lemma infer_POST_paths w req : Infer.Path w req (run (Infer.POST w req)).
Proof.
  unfold run, Infer.POST. rewrite try_catch_bind.
  destruct req as [fd|]; simpl; [|by async_eval; constructor].
  destruct (truthy (get fd "image")) eqn:Himage; simpl; [|constructor; by left].
  destruct (truthy (get fd "type")) eqn:Htype; simpl; [|constructor; by right].
  rewrite try_catch_bind, mkdir_run.
  destruct (mkdir_result _ _) as [code|] eqn:Hmkdir; [by async_eval; constructor|].
  rewrite try_catch_bind.
  destruct (get fd "image") as [[s|name content]|] eqn:Hget; simpl;
    [by async_eval; eapply Infer.not_a_file; rewrite ?Hget| |done].
  rewrite try_catch_bind, writeFile_run. rewrite <- Hget in *.
  destruct (writeFile_result _ _ _) as [code|] eqn:Hwrite.
  { async_eval. by eapply Infer.write_failed. }
  change (try_catch _ ?h ?t) with
    (try_catch
       (relay w
          (Infer.spawn_args w fd
             (path_join [path_join [cwd w; "uploads"];
                         Infer.fileName (get fd "patientId") (now w) (get fd "image")]))
          (fun d => Infer.success d
             (Infer.fileName (get fd "patientId") (now w) (get fd "image"))))
       h t).
  rewrite relay_run. by eapply Infer.relayed.
Qed.

Lemma temp_ready_run w :
  Train.temp_ready w ->
  match mkdir_result w (path_join [cwd w; "temp"]) with
  | None => Returned ()
  | Some code =>
      if String.eqb code "EEXIST" then Returned () else Thrown (FsError code)
  end = Returned ().
Proof. by intros [-> | ->]. Qed.

Lemma train_POST_paths w req : Train.Path w req (run (Train.POST w req)).
Proof.
  unfold run, Train.POST. rewrite try_catch_bind.
  destruct req as [fd|]; simpl; [|by async_eval; constructor].
  rewrite try_catch_bind, createTempDir_run.
  assert (Train.temp_ready w \/
          exists code, mkdir_result w (path_join [cwd w; "temp"]) = Some code /\
                       code <> "EEXIST") as [Hready|(code & Hmkdir & Hcode)].
  { unfold Train.temp_ready.
    destruct (mkdir_result _ _) as [code|]; [|by left; left].
    destruct (decide (code = "EEXIST")) as [->|]; [by left; right|right; eauto]. }
  2: { rewrite Hmkdir, (proj2 (String.eqb_neq _ _) Hcode).
       async_eval. by constructor. }
  rewrite (temp_ready_run _ Hready), try_catch_bind.
  destruct (truthy (get fd "modelUpdate")) eqn:Hupdate.
  - destruct (get fd "modelUpdate") as [[s|name content]|] eqn:Hget; [| |done].
    { async_eval. eapply Train.not_a_file; [done..|]. by intros ->. }
    unfold arrayBuffer, mbind at 1, Async_bind at 1; simpl.
    unfold mbind at 1, Async_bind at 1. rewrite writeFile_run.
    destruct (writeFile_result _ _ _) as [code|] eqn:Hwrite.
    { async_eval. by eapply Train.write_failed. }
    unfold mret at 1, Async_ret at 1.
    change (try_catch _ ?h ?t) with
      (try_catch
         (relay w
            (Train.base_args w fd ++
             [Some (EStr "--update_path");
              Some (EStr (path_join [path_join [cwd w; "temp"];
                                     Train.updateName (get fd "clientId") (now w)]))])
            Train.result_ok) h t).
    rewrite relay_run. by eapply Train.relayed_update.
  - unfold mret at 1, Async_ret at 1.
    change (try_catch _ ?h ?t) with
      (try_catch (relay w (Train.base_args w fd) Train.result_ok) h t).
    rewrite relay_run. by eapply Train.relayed.
Qed.

(** *** Consequences used by several claims *)

Lemma respond_returned label ok fail o r :
  (respond label ok fail o).1 = Returned r -> r = fail \/ exists d, r = ok d.
Proof. destruct o; simpl; intros; simplify_eq; eauto. Qed.

Lemma respond_not_thrown label ok fail o e :
  (respond label ok fail o).1 <> Thrown e.
Proof. by destruct o. Qed.

Lemma respond_spawn_free label ok fail o cmd args :
  Spawn cmd args ∉ (respond label ok fail o).2.
Proof. destruct o; simpl; intros Hin; inv_elem; done. Qed.

(** A child that exits non-zero, or writes to [stderr], settles as a throw;
    when only [stdout] is read, the exit code alone decides. *)
Lemma settle_failure c code out err :
  c = Closes code out err ->
  code <> Some 0%Z \/ collect err <> "" ->
  exists e, settle c = Thrown e.
Proof.
  intros -> Hbad. simpl. destruct (decide (code = Some 0%Z)); [|eauto].
  destruct Hbad as [?|Herr]; [done|].
  unfold truthy_str. apply String.eqb_neq in Herr as ->. eauto.
Qed.

Lemma settle_success c out err x :
  c = Closes (Some 0%Z) out err ->
  collect err = "" -> JSON_parse (collect out) = Some x ->
  settle c = Returned x.
Proof.
  intros -> Herr Hout. unfold settle, truthy_str.
  rewrite Herr, Hout. by case_decide.
Qed.


(** If a handler spawned a process at all, it spawned [python] once and its
    outcome is what the relay protocol makes of that child. *)
Lemma infer_POST_spawned w req o t cmd args :
  run (Infer.POST w req) = (o, t) -> Spawn cmd args ∈ t ->
  exists file,
    o = (respond "Inference error:" (fun d => Infer.success d file) Infer.failure
           (settle (child w cmd args))).1.
Proof.
  intros Hrun Hin. pose proof (infer_POST_paths w req) as HP.
  rewrite Hrun in HP. inversion HP; subst; inv_elem; simplify_eq; eauto.
  by apply respond_spawn_free in Hin.
Qed.

Lemma train_POST_spawned w req o t cmd args :
  run (Train.POST w req) = (o, t) -> Spawn cmd args ∈ t ->
  o = (respond "Training error:" Train.result_ok Train.failure
         (settle (child w cmd args))).1.
Proof.
  intros Hrun Hin. pose proof (train_POST_paths w req) as HP.
  rewrite Hrun in HP. inversion HP; subst; inv_elem; simplify_eq; eauto.
  all: by apply respond_spawn_free in Hin.
Qed.

Lemma train_GET_spawned w req o t cmd args :
  run (Train.GET w req) = (o, t) -> Spawn cmd args ∈ t ->
  o = (respond "Error getting training status:" Train.status_ok Train.status_failure
         (settle_stdout (child w cmd args))).1.
Proof.
  rewrite train_GET_run. simpl. intros Hrun Hin. simplify_eq.
  inv_elem; simplify_eq; [done|]. by apply respond_spawn_free in Hin.
Qed.

End RelayRuns.

(** ** The relay endpoints *)

Section RelayClaims.
Import Js Relay.
Context {rt : Runtime}.

(** C1 (as amended).  A multipart request to the inference endpoint that
    lacks [image] or [type] is answered at once with the failure envelope and
    status 400: the run has no effect at all, so no directory was created, no
    file written and no process spawned.  The training endpoint has no such
    check on [POST]: it never answers 400 (a response has status 200 or 500),
    every multipart request first creates the temp directory, and a request
    without an action name that carries no model update goes on to spawn the
    process with the missing value in the [--mode] position. *)
Theorem missing_field_rejection (w : World) (fd : FormData) :
  (get fd "image" = None \/ get fd "type" = None ->
   run (Infer.POST w (Multipart fd)) =
   (Returned {| body := [("success", FBool false);
                         ("error", FStr "Missing required fields")];
                status := 400 |}, []))
  /\ (forall req r t,
        run (Train.POST w req) = (Returned r, t) ->
        status r = 200%Z \/ status r = 500%Z)
  /\ (exists t,
        (run (Train.POST w (Multipart fd))).2 = Mkdir (path_join [cwd w; "temp"]) :: t)
  /\ (get fd "action" = None ->
      Train.temp_ready w -> truthy (get fd "modelUpdate") = false ->
      Spawn "python" [Train.cli w; Some (EStr "--mode"); None;
                      Some (EStr "--client_id"); get fd "clientId"]
        ∈ (run (Train.POST w (Multipart fd))).2).
Proof.
  split; [|split; [|split]].
  - intros Hmissing. pose proof (infer_POST_paths w (Multipart fd)) as HP.
    inversion HP as [|? ? Hrun| | | |]; subst; try done.
    all: destruct Hmissing as [Hnone|Hnone]; rewrite Hnone in *; done.
  - intros req r t Hrun. pose proof (train_POST_paths w req) as HP.
    rewrite Hrun in HP.
    inversion HP; subst; eauto.
    all: match goal with
         | Hr : _.1 = Returned _ |- _ =>
             apply respond_returned in Hr as [->|[d ->]]; eauto
         end.
  - pose proof (train_POST_paths w (Multipart fd)) as HP.
    inversion HP; subst; simpl; eauto.
  - intros Haction Hready Hupdate.
    pose proof (train_POST_paths w (Multipart fd)) as HP.
    inversion HP; subst; simpl.
    + destruct Hready; congruence.
    + match goal with Hget : get _ "modelUpdate" = _, Hs : _ <> "" |- _ =>
        rewrite Hget in Hupdate; apply String.eqb_neq in Hs;
        simpl in Hupdate; by rewrite Hs in Hupdate
      end.
    + match goal with Hget : get _ "modelUpdate" = _ |- _ =>
        by rewrite Hget in Hupdate
      end.
    + match goal with Hget : get _ "modelUpdate" = _ |- _ =>
        by rewrite Hget in Hupdate
      end.
    + rewrite <- Haction. by do 2 constructor.
Qed.

(** C2 (as amended).  When the process a training request spawned exits
    with code zero and printed a valid JSON document [x] on standard output,
    [GET] answers [{ success: true, status: x }] with status 200; [POST]
    answers [{ success: true, result: x }] with status 200 provided the
    process wrote nothing to standard error. *)
Theorem training_success_envelope (w : World) (req : Request)
    (cmd : string) (args : list Value) (out err : list string) (x : Doc) :
  child w cmd args = Closes (Some 0%Z) out err ->
  JSON_parse (collect out) = Some x ->
  (forall o t,
     run (Train.GET w req) = (o, t) -> Spawn cmd args ∈ t ->
     o = Returned {| body := [("success", FBool true); ("status", FDoc x)];
                     status := 200 |})
  /\ (forall o t,
        run (Train.POST w req) = (o, t) -> Spawn cmd args ∈ t ->
        collect err = "" ->
        o = Returned {| body := [("success", FBool true); ("result", FDoc x)];
                        status := 200 |}).
Proof.
  intros Hchild Hparse. split.
  - intros o t Hrun Hin. rewrite (train_GET_spawned _ _ _ _ _ _ Hrun Hin).
    rewrite Hchild. simpl. by rewrite Hparse.
  - intros o t Hrun Hin Herr.
    rewrite (train_POST_spawned _ _ _ _ _ _ Hrun Hin).
    by rewrite (settle_success _ _ _ _ Hchild Herr Hparse).
Qed.

(** C3 (as amended).  When the process a handler spawned exits non-zero
    (or is killed), the handler answers its generic failure envelope with
    status 500, whatever the cause; the two [POST] handlers do the same when
    the process wrote anything to standard error.  [GET /api/train] does not
    read standard error. *)
Theorem process_failure_envelope (w : World) (req : Request)
    (cmd : string) (args : list Value) (code : option Z) (out err : list string) :
  child w cmd args = Closes code out err ->
  (forall o t,
     run (Infer.POST w req) = (o, t) -> Spawn cmd args ∈ t ->
     code <> Some 0%Z \/ collect err <> "" ->
     o = Returned {| body := [("success", FBool false); ("error", FStr "Inference failed")];
                     status := 500 |})
  /\ (forall o t,
        run (Train.POST w req) = (o, t) -> Spawn cmd args ∈ t ->
        code <> Some 0%Z \/ collect err <> "" ->
        o = Returned {| body := [("success", FBool false);
                                 ("error", FStr "Training operation failed")];
                        status := 500 |})
  /\ (forall o t,
        run (Train.GET w req) = (o, t) -> Spawn cmd args ∈ t ->
        code <> Some 0%Z ->
        o = Returned {| body := [("success", FBool false);
                                 ("error", FStr "Failed to get training status")];
                        status := 500 |}).
Proof.
  intros Hchild. repeat split.
  - intros o t Hrun Hin Hbad.
    destruct (infer_POST_spawned _ _ _ _ _ _ Hrun Hin) as [file ->].
    by destruct (settle_failure _ _ _ _ Hchild Hbad) as [e ->].
  - intros o t Hrun Hin Hbad.
    rewrite (train_POST_spawned _ _ _ _ _ _ Hrun Hin).
    by destruct (settle_failure _ _ _ _ Hchild Hbad) as [e ->].
  - intros o t Hrun Hin Hcode.
    rewrite (train_GET_spawned _ _ _ _ _ _ Hrun Hin), Hchild. simpl.
    by rewrite decide_False.
Qed.


Lemma string_app_assoc (a b c : string) : (a +:+ b) +:+ c = a +:+ b +:+ c.
Proof.
  induction a as [|x a IH]; [done|].
  change (String x ((a +:+ b) +:+ c) = String x (a +:+ b +:+ c)). by rewrite IH.
Qed.

Lemma respond_write_free label ok fail o p data :
  WriteFile p data ∉ (respond label ok fail o).2.
Proof. destruct o; simpl; intros Hin; inv_elem; done. Qed.

(** C5.  Uploading a file named [scan.dcm] with [type=ct] and
    [patientId=42]: the name the file is persisted under is
    [42_<clock>_scan.dcm], so it contains [42_] and, to its right,
    [scan.dcm]; no file is written under any other name, and the file is
    written whenever the uploads directory could be created. *)
Theorem scan_upload_filename (w : World) (fd : FormData) (content : list Byte.byte) :
  get fd "image" = Some (EFile "scan.dcm" content) ->
  get fd "type" = Some (EStr "ct") ->
  get fd "patientId" = Some (EStr "42") ->
  let file := Infer.fileName (get fd "patientId") (now w) (get fd "image") in
  let imagePath := path_join [path_join [cwd w; "uploads"]; file] in
  let t := (run (Infer.POST w (Multipart fd))).2 in
  file = "42_" +:+ number_to_string (now w) +:+ "_" +:+ "scan.dcm"
  /\ occurs_before "42_" "scan.dcm" file
  /\ (forall p data, WriteFile p data ∈ t -> p = imagePath /\ data = content)
  /\ (mkdir_result w (path_join [cwd w; "uploads"]) = None ->
      WriteFile imagePath content ∈ t).
Proof.
  intros Himage Htype Hid file imagePath t.
  assert (Hfile : file = "42_" +:+ number_to_string (now w) +:+ "_" +:+ "scan.dcm").
  { unfold file, Infer.fileName. by rewrite Himage, Hid. }
  split; [done|]. split.
  { exists "", (number_to_string (now w) +:+ "_"), "".
    by rewrite Hfile, string_app_assoc. }
  assert (Htruthy : truthy (get fd "image") = true /\ truthy (get fd "type") = true)
    by by rewrite Himage, Htype.
  destruct Htruthy as [Ht1 Ht2].
  unfold t. generalize (infer_POST_paths w (Multipart fd)).
  generalize (run (Infer.POST w (Multipart fd))). intros res HP.
  inversion HP as [|? [?|?]| | | |]; subst; try congruence; simplify_eq;
    cbn [snd]; (split; [intros p data Hin; inv_elem; simplify_eq|]).
  - congruence.
  - split; reflexivity.
  - intros _. apply list_elem_of_further, list_elem_of_here.
  - split; reflexivity.
  - by apply respond_write_free in Hin.
  - intros _. apply list_elem_of_further, list_elem_of_here.
Qed.

End RelayClaims.

(** *** Closed instances of the relay claims *)

Section RelayInstances.
Import Js Relay.
#[local] Existing Instance Demo.runtime.

(** C1, counterexample.  A training [POST] that names no action is not
    rejected with status 400: the temp directory is created, the process is
    spawned with [null] where the action belongs, and the answer is the
    status-500 envelope the failed process leads to. *)
Lemma training_POST_without_action_is_relayed :
  get Demo.without_action "action" = None
  /\ run (Train.POST (Demo.world Demo.usage_error) (Multipart Demo.without_action)) =
     (Returned {| body := [("success", FBool false);
                           ("error", FStr "Training operation failed")];
                  status := 500 |},
      [Mkdir "/srv/app/temp";
       Spawn "python"
         [Some (EStr "/srv/app/fl-backend/server/cli.py"); Some (EStr "--mode"); None;
          Some (EStr "--client_id"); Some (EStr "hospital-a")];
       ConsoleError "Training error:" (ExitError (Some 2%Z))]).
Proof. split; reflexivity. Qed.

Lemma missing_field_rejection_witness :
  run (Infer.POST (Demo.world NeverCloses) (Multipart Demo.upload_without_image)) =
    (Returned {| body := [("success", FBool false);
                          ("error", FStr "Missing required fields")];
                 status := 400 |}, [])
  /\ Spawn "python"
       [Train.cli (Demo.world NeverCloses); Some (EStr "--mode"); None;
        Some (EStr "--client_id"); get Demo.without_action "clientId"]
       ∈ (run (Train.POST (Demo.world NeverCloses) (Multipart Demo.without_action))).2.
Proof.
  split.
  - apply (missing_field_rejection (Demo.world NeverCloses) Demo.upload_without_image).
    left. reflexivity.
  - apply (missing_field_rejection (Demo.world NeverCloses) Demo.without_action).
    + reflexivity.
    + left. reflexivity.
    + reflexivity.
Defined.

(** C2, counterexample.  The process exits with code zero and prints the
    valid document [{}], yet the training [POST] answers the status-500
    failure envelope, because the process also wrote a warning to standard
    error. *)
Lemma training_POST_fails_on_stderr_output :
  JSON_parse (collect ["{}"]) = Some Demo.JEmptyObject
  /\ run (Train.POST (Demo.world Demo.noisy_exit) (Multipart Demo.start_round)) =
     (Returned {| body := [("success", FBool false);
                           ("error", FStr "Training operation failed")];
                  status := 500 |},
      [Mkdir "/srv/app/temp";
       Spawn "python"
         [Some (EStr "/srv/app/fl-backend/server/cli.py"); Some (EStr "--mode");
          Some (EStr "start_round"); Some (EStr "--client_id"); Some (EStr "hospital-a")];
       ConsoleError "Training error:" (StderrError "UserWarning: falling back to CPU")]).
Proof. split; reflexivity. Qed.

Lemma training_success_envelope_witness :
  (run (Train.GET (Demo.world Demo.clean_exit) (Multipart Demo.start_round))).1 =
    Returned {| body := [("success", FBool true); ("status", FDoc Demo.JEmptyObject)];
                status := 200 |}
  /\ (run (Train.POST (Demo.world Demo.clean_exit) (Multipart Demo.start_round))).1 =
    Returned {| body := [("success", FBool true); ("result", FDoc Demo.JEmptyObject)];
                status := 200 |}.
Proof.
  split.
  - eapply (training_success_envelope (Demo.world Demo.clean_exit)
              (Multipart Demo.start_round) "python"
              [Train.cli (Demo.world Demo.clean_exit); Some (EStr "--mode");
               Some (EStr "status")]);
      [reflexivity|reflexivity|apply surjective_pairing|].
    apply list_elem_of_here.
  - eapply (training_success_envelope (Demo.world Demo.clean_exit)
              (Multipart Demo.start_round) "python"
              (Train.base_args (Demo.world Demo.clean_exit) Demo.start_round));
      [reflexivity|reflexivity|apply surjective_pairing| |reflexivity].
    apply list_elem_of_further, list_elem_of_here.
Defined.

(** C3, counterexample.  The status process writes to standard error and
    exits with code zero: [GET /api/train] answers the success envelope with
    status 200, not the failure envelope. *)
Lemma training_GET_ignores_stderr :
  run (Train.GET (Demo.world Demo.noisy_exit) (Multipart [])) =
  (Returned {| body := [("success", FBool true); ("status", FDoc Demo.JEmptyObject)];
               status := 200 |},
   [Spawn "python"
      [Some (EStr "/srv/app/fl-backend/server/cli.py"); Some (EStr "--mode");
       Some (EStr "status")]]).
Proof. reflexivity. Qed.

Lemma process_failure_envelope_witness :
  (run (Infer.POST (Demo.world Demo.usage_error) (Multipart Demo.scan_upload))).1 =
    Returned {| body := [("success", FBool false); ("error", FStr "Inference failed")];
                status := 500 |}
  /\ (run (Train.POST (Demo.world Demo.usage_error) (Multipart Demo.start_round))).1 =
    Returned {| body := [("success", FBool false);
                         ("error", FStr "Training operation failed")];
                status := 500 |}
  /\ (run (Train.GET (Demo.world Demo.usage_error) (Multipart []))).1 =
    Returned {| body := [("success", FBool false);
                         ("error", FStr "Failed to get training status")];
                status := 500 |}.
Proof.
  split; [|split].
  - eapply (process_failure_envelope (Demo.world Demo.usage_error)
              (Multipart Demo.scan_upload) "python"
              (Infer.spawn_args (Demo.world Demo.usage_error) Demo.scan_upload
                 "/srv/app/uploads/42_1700000000000_scan.dcm"));
      [reflexivity|apply surjective_pairing| |left; discriminate].
    vm_compute. apply list_elem_of_further, list_elem_of_further, list_elem_of_here.
  - eapply (process_failure_envelope (Demo.world Demo.usage_error)
              (Multipart Demo.start_round) "python"
              (Train.base_args (Demo.world Demo.usage_error) Demo.start_round));
      [reflexivity|apply surjective_pairing| |left; discriminate].
    apply list_elem_of_further, list_elem_of_here.
  - eapply (process_failure_envelope (Demo.world Demo.usage_error)
              (Multipart []) "python"
              [Train.cli (Demo.world Demo.usage_error); Some (EStr "--mode");
               Some (EStr "status")]);
      [reflexivity|apply surjective_pairing| |discriminate].
    apply list_elem_of_here.
Defined.


Lemma scan_upload_filename_witness :
  occurs_before "42_" "scan.dcm" "42_1700000000000_scan.dcm"
  /\ WriteFile "/srv/app/uploads/42_1700000000000_scan.dcm"
       [Byte.x44; Byte.x49; Byte.x43; Byte.x4d]
       ∈ (run (Infer.POST (Demo.world Demo.clean_exit) (Multipart Demo.scan_upload))).2.
Proof.
  destruct (scan_upload_filename (Demo.world Demo.clean_exit) Demo.scan_upload
              [Byte.x44; Byte.x49; Byte.x43; Byte.x4d])
    as (_ & Hocc & _ & Hwrite); [reflexivity..|].
  split; [exact Hocc|exact (Hwrite eq_refl)].
Defined.

End RelayInstances.

(** ** The role-gated shell *)

Section Shell.
Import Browser.

Lemma nav_texts (role pathname : string) :
  Sidebar.text <$> Sidebar.nav role pathname = Sidebar.label <$> Sidebar.visible role.
Proof.
  unfold Sidebar.nav. rewrite <- list_fmap_compose. by apply list_fmap_ext.
Qed.

Lemma load_with_role (b : Browser.State) (role : string) :
  getCookie "userRole" b = Some role -> role <> "" ->
  DashboardLayout.load b =
  (DashboardLayout.Shell (Sidebar.nav role (location b)), (Some role, b)).
Proof.
  intros Hcookie Hrole. apply String.eqb_neq in Hrole.
  unfold DashboardLayout.load, DashboardLayout.effect. rewrite Hcookie.
  unfold DashboardLayout.absent. rewrite Hrole.
  unfold DashboardLayout.render, DashboardLayout.absent. by rewrite Hrole.
Qed.

(** C6.  With the role cookie set to ["doctor"], loading the dashboard
    shell renders a sidebar without "Upload Images"; with ["radiologist"] the
    sidebar has it.  In general the sidebar shows, in menu order, exactly the
    menu items whose allow-list contains the current role. *)
Theorem sidebar_by_role (b : Browser.State) :
  (getCookie "userRole" b = Some "doctor" ->
   exists nav, (DashboardLayout.load b).1 = DashboardLayout.Shell nav
               /\ "Upload Images" ∉ Sidebar.text <$> nav)
  /\ (getCookie "userRole" b = Some "radiologist" ->
      exists nav, (DashboardLayout.load b).1 = DashboardLayout.Shell nav
                  /\ "Upload Images" ∈ Sidebar.text <$> nav)
  /\ (forall role, getCookie "userRole" b = Some role -> role <> "" ->
      (DashboardLayout.load b).1 =
        DashboardLayout.Shell
          (Sidebar.render_item (location b) <$>
             filter (fun item => role ∈ Sidebar.roles item) Sidebar.menuItems)
      /\ forall item, item ∈ Sidebar.visible role <->
                      item ∈ Sidebar.menuItems /\ role ∈ Sidebar.roles item).
Proof.
  split; [|split].
  - intros Hcookie. rewrite (load_with_role b "doctor") by done.
    eexists; split; [done|]. rewrite nav_texts. compute_done.
  - intros Hcookie. rewrite (load_with_role b "radiologist") by done.
    eexists; split; [done|]. rewrite nav_texts. compute_done.
  - intros role Hcookie Hrole. rewrite (load_with_role b role) by done.
    split; [done|]. intros item. unfold Sidebar.visible.
    rewrite list_elem_of_filter. tauto.
Qed.

(** C7.  Without the role cookie the shell redirects to the login view at
    ["/"] and renders the loading placeholder, not the role-gated layout; its
    role state stays empty. *)
Theorem no_cookie_redirects (b : Browser.State) :
  cookies b !! "userRole" = None ->
  DashboardLayout.load b = (DashboardLayout.Loading, (None, push "/" b))
  /\ location (DashboardLayout.load b).2.2 = "/"
  /\ forall nav, (DashboardLayout.load b).1 <> DashboardLayout.Shell nav.
Proof.
  intros Hnone.
  assert (Hload : DashboardLayout.load b = (DashboardLayout.Loading, (None, push "/" b))).
  { unfold DashboardLayout.load, DashboardLayout.effect, getCookie. by rewrite Hnone. }
  rewrite Hload. by repeat split.
Qed.

(** C8.  Submitting the login form.  With a role selected and both email
    and password non-empty, the cookie [userRole] is set to the selected role
    (["doctor"] or ["radiologist"]) with a max-age of 24 hours and path ["/"],
    and the router goes to ["/dashboard"].  With no role selected, the error
    "Please select a role" is shown and the browser (cookies included) is left
    as it was.  Email and password are only tested for being non-empty: any
    two non-empty credentials give the same result. *)
Theorem login_submit (st : Login.State) (b : Browser.State) :
  (forall role,
     Login.selectedRole st = Some role ->
     Login.email st <> "" -> Login.password st <> "" ->
     cookies (Login.handleSubmit st b).2 !! "userRole" =
       Some {| value := Login.role_string role; maxAge := 24 * 3600; path := "/" |}
     /\ Login.role_string role ∈ ["doctor"; "radiologist"]
     /\ location (Login.handleSubmit st b).2 = "/dashboard")
  /\ (Login.selectedRole st = None ->
      Login.error_banner (Login.handleSubmit st b).1 = Some "Please select a role"
      /\ (Login.handleSubmit st b).2 = b)
  /\ (forall email1 password1 email2 password2,
        email1 <> "" -> password1 <> "" -> email2 <> "" -> password2 <> "" ->
        (Login.handleSubmit
           {| Login.email := email1; Login.password := password1;
              Login.selectedRole := Login.selectedRole st;
              Login.error := Login.error st |} b).2 =
        (Login.handleSubmit
           {| Login.email := email2; Login.password := password2;
              Login.selectedRole := Login.selectedRole st;
              Login.error := Login.error st |} b).2).
Proof.
  split; [|split].
  - intros role Hrole Hemail Hpassword. unfold Login.handleSubmit, Js.truthy_str.
    apply String.eqb_neq in Hemail, Hpassword.
    rewrite Hrole, Hemail, Hpassword. simpl.
    split; [by rewrite lookup_insert_eq|].
    split; [destruct role; set_solver|done].
  - intros Hrole. unfold Login.handleSubmit. by rewrite Hrole.
  - intros e1 p1 e2 p2 He1 Hp1 He2 Hp2. unfold Login.handleSubmit, Js.truthy_str.
    apply String.eqb_neq in He1, Hp1, He2, Hp2. simpl.
    rewrite He1, Hp1, He2, Hp2. by destruct (Login.selectedRole st).
Qed.

Lemma click_logout_frame (p : DashboardLayout.State * Browser.State) :
  (DashboardLayout.click_logout p).1 = p.1
  /\ cookies (DashboardLayout.click_logout p).2 = cookies p.2
  /\ location (DashboardLayout.click_logout p).2 = location p.2
  /\ console (DashboardLayout.click_logout p).2 = console p.2 ++ ["Logout clicked"].
Proof. by destruct p. Qed.

(** No handler of the client-side views deletes a cookie: submitting the
    login form only adds or overwrites [userRole], and the shell's mount
    effect leaves the jar alone. *)
Lemma handlers_keep_cookies (b : Browser.State) :
  (forall st, dom (cookies b) ⊆ dom (cookies (Login.handleSubmit st b).2))
  /\ (forall st, cookies (DashboardLayout.effect st b).2 = cookies b).
Proof.
  split; intros st.
  - unfold Login.handleSubmit. repeat case_match; simpl; [|done..].
    rewrite dom_insert. set_solver.
  - unfold DashboardLayout.effect. by case_match.
Qed.

Lemma logout_clicks_frame (n : nat) (p : DashboardLayout.State * Browser.State) :
  (Nat.iter n DashboardLayout.click_logout p).1 = p.1
  /\ cookies (Nat.iter n DashboardLayout.click_logout p).2 = cookies p.2
  /\ location (Nat.iter n DashboardLayout.click_logout p).2 = location p.2
  /\ console (Nat.iter n DashboardLayout.click_logout p).2 =
     console p.2 ++ replicate n "Logout clicked".
Proof.
  induction n as [|n (IHst & IHjar & IHloc & IHlog)].
  - simpl. by rewrite app_nil_r.
  - rewrite !Nat.iter_succ.
    destruct (click_logout_frame (Nat.iter n DashboardLayout.click_logout p))
      as (Hst & Hjar & Hloc & Hlog).
    rewrite Hst, Hjar, Hloc, Hlog, IHst, IHjar, IHloc, IHlog.
    repeat split. rewrite <- app_assoc. f_equal.
    change ["Logout clicked"] with (replicate 1 "Logout clicked").
    rewrite <- replicate_add. f_equal. lia.
Qed.

(** C9.  Clicking the sidebar's logout button any number of times leaves
    the role cookie (indeed every cookie), the shell's role state, the route
    and hence the rendered shell unchanged; each click only writes a line to
    the console.  Nor does any other handler take the cookie away: the login
    form never removes a cookie and the shell's mount effect does not touch
    the jar, so an authenticated shell is left only when the cookie itself
    goes. *)
Theorem logout_is_inert (n : nat) (p : DashboardLayout.State * Browser.State) :
  (Nat.iter n DashboardLayout.click_logout p).1 = p.1
  /\ cookies (Nat.iter n DashboardLayout.click_logout p).2 = cookies p.2
  /\ getCookie "userRole" (Nat.iter n DashboardLayout.click_logout p).2 =
     getCookie "userRole" p.2
  /\ location (Nat.iter n DashboardLayout.click_logout p).2 = location p.2
  /\ DashboardLayout.render (Nat.iter n DashboardLayout.click_logout p).1
       (Nat.iter n DashboardLayout.click_logout p).2 =
     DashboardLayout.render p.1 p.2
  /\ console (Nat.iter n DashboardLayout.click_logout p).2 =
     console p.2 ++ replicate n "Logout clicked"
  /\ (forall st, dom (cookies p.2) ⊆ dom (cookies (Login.handleSubmit st p.2).2))
  /\ (forall st, cookies (DashboardLayout.effect st p.2).2 = cookies p.2).
Proof.
  destruct (logout_clicks_frame n p) as (Hst & Hjar & Hloc & Hlog).
  destruct (handlers_keep_cookies p.2) as [Hsubmit Heffect].
  unfold getCookie, DashboardLayout.render.
  rewrite Hst, Hjar, Hloc. by repeat split.
Qed.

End Shell.

(** ** Pan and zoom *)

Section Pan.
Import PatientDetail.
Open Scope Z_scope.

Lemma handlePan_in_range direction st : in_range (handlePan direction st).
Proof. unfold in_range, handlePan. destruct direction; simpl; lia. Qed.

Lemma step_in_range st op : in_range (step st op).
Proof.
  destruct op; simpl; try apply handlePan_in_range. unfold in_range; simpl; lia.
Qed.

Lemma steps_in_range ops st : in_range st -> in_range (steps ops st).
Proof.
  revert st. induction ops as [|op ops IH]; intros st Hst; [done|].
  apply IH, step_in_range.
Qed.

(** C10.  The image position starts at 0 and stays within [-200, 0] under
    every sequence of pan-left, pan-right and zoom-toggle; the pan-left
    button is disabled exactly at 0 and the pan-right button exactly at
    -200. *)
Theorem pan_position_bounds (ops : list Op) :
  imagePosition init = 0
  /\ -200 <= imagePosition (steps ops init) <= 0
  /\ -200 <= offset (steps ops init) <= 0
  /\ (left_disabled (steps ops init) = true <-> imagePosition (steps ops init) = 0)
  /\ (right_disabled (steps ops init) = true <-> imagePosition (steps ops init) = -200).
Proof.
  assert (Hrange : in_range (steps ops init))
    by (apply steps_in_range; unfold in_range; simpl; lia).
  unfold in_range, left_disabled, right_disabled, offset in *.
  split; [done|]. split; [done|]. split; [destruct (imageZoomed _); lia|].
  rewrite Z.leb_le, Z.leb_le. lia.
Qed.

End Pan.

(** *** Closed instances of the view claims *)

Section ViewInstances.
Import Browser.

Lemma sidebar_by_role_witness :
  (exists nav, (DashboardLayout.load (Demo.signed_in "doctor")).1 = DashboardLayout.Shell nav
               /\ "Upload Images" ∉ Sidebar.text <$> nav)
  /\ (exists nav,
        (DashboardLayout.load (Demo.signed_in "radiologist")).1 = DashboardLayout.Shell nav
        /\ "Upload Images" ∈ Sidebar.text <$> nav).
Proof.
  split.
  - apply (sidebar_by_role (Demo.signed_in "doctor")). reflexivity.
  - apply (sidebar_by_role (Demo.signed_in "radiologist")). reflexivity.
Defined.

Lemma no_cookie_redirects_witness :
  DashboardLayout.load Demo.signed_out =
  (DashboardLayout.Loading, (None, push "/" Demo.signed_out)).
Proof. apply (no_cookie_redirects Demo.signed_out). reflexivity. Defined.

Lemma login_submit_witness :
  cookies (Login.handleSubmit (Demo.filled_form (Some Login.radiologist))
             Demo.signed_out).2 !! "userRole" =
    Some {| value := "radiologist"; maxAge := 86400; path := "/" |}
  /\ (Login.handleSubmit (Demo.filled_form None) Demo.signed_out).2 = Demo.signed_out.
Proof.
  destruct (login_submit (Demo.filled_form (Some Login.radiologist)) Demo.signed_out)
    as (Hset & _ & _).
  destruct (login_submit (Demo.filled_form None) Demo.signed_out) as (_ & Hnone & _).
  split.
  - apply (Hset Login.radiologist); [reflexivity|discriminate|discriminate].
  - apply Hnone. reflexivity.
Defined.

(** Five pans to the right after zooming in stop at -200; zooming out
    resets the position. *)
Example pan_right_saturates :
  PatientDetail.imagePosition
    (PatientDetail.steps
       [PatientDetail.ZoomToggle; PatientDetail.PanRight; PatientDetail.PanRight;
        PatientDetail.PanRight; PatientDetail.PanRight; PatientDetail.PanRight]
       PatientDetail.init) = (-200)%Z
  /\ PatientDetail.imagePosition
       (PatientDetail.steps
          [PatientDetail.ZoomToggle; PatientDetail.PanRight; PatientDetail.ZoomToggle]
          PatientDetail.init) = 0%Z.
Proof. split; reflexivity. Qed.

End ViewInstances.

(** * Further properties *)

(** ** The relay handlers *)

(** Split a run along its path and along what the child settled to. *)
Ltac by_path HP :=
  inversion HP; subst;
  repeat match goal with r := Relay.respond _ _ _ _ |- _ => subst r end;
  try match goal with
      | |- context [Relay.settle ?c] => destruct (Relay.settle c) eqn:?
      | H : context [Relay.settle ?c] |- _ => destruct (Relay.settle c) eqn:?
      end;
  cbn [Relay.respond fst snd app] in *; simplify_eq.

Section RelayExtras.
Import Js Relay Envelope.
Context {rt : Runtime}.

Lemma settle_stuck c : settle c = Stuck -> c = NeverCloses.
Proof. destruct c; simpl; [done..|]. by repeat case_match. Qed.

Lemma settle_stdout_stuck c : settle_stdout c = Stuck -> c = NeverCloses.
Proof. destruct c; simpl; [done..|]. by repeat case_match. Qed.

(** X1.  No exception escapes either training handler: a run ends in a
    response with status 200 or 500, except that it never ends when the
    child it spawned never closes. *)
Theorem training_handlers_always_answer (w : World) (req : Request) :
  match run (Train.GET w req) with
  | (Returned r, _) => status r = 200%Z \/ status r = 500%Z
  | (Thrown _, _) => False
  | (Stuck, t) =>
      exists args, Spawn "python" args ∈ t /\ child w "python" args = NeverCloses
  end
  /\ match run (Train.POST w req) with
     | (Returned r, _) => status r = 200%Z \/ status r = 500%Z
     | (Thrown _, _) => False
     | (Stuck, t) =>
         exists args, Spawn "python" args ∈ t /\ child w "python" args = NeverCloses
     end.
Proof.
  split.
  - rewrite train_GET_run. cbv zeta.
    destruct (settle_stdout _) eqn:Hsettle; cbn; auto.
    eexists. split; [apply list_elem_of_here|by apply settle_stdout_stuck].
  - generalize (train_POST_paths w req).
    generalize (run (Train.POST w req)). intros res HP.
    by_path HP; auto.
    all: eexists; (split; [|by apply settle_stuck]); set_solver.
Qed.

Lemma failure_envelopes_agree :
  agrees Infer.missing_fields /\ agrees Infer.failure
  /\ agrees Train.failure /\ agrees Train.status_failure.
Proof.
  repeat split; right; cbn; (repeat split; [auto..|]); by eexists.
Qed.

(** X2.  In every response of the three handlers the status line and the
    body agree: status 200 comes with [success: true] and no [error]; status
    400 (inference only) and 500 come with [success: false], a non-empty
    [error] message and no [result].  The training handlers never answer
    400. *)
Theorem status_agrees_with_success (w : World) (req : Request) :
  (forall r t, run (Infer.POST w req) = (Returned r, t) -> agrees r)
  /\ (forall r t, run (Train.POST w req) = (Returned r, t) ->
        agrees r /\ status r <> 400%Z)
  /\ (forall r t, run (Train.GET w req) = (Returned r, t) ->
        agrees r /\ status r <> 400%Z).
Proof.
  destruct failure_envelopes_agree as (Hmissing & Hinfer & Htrain & Hstatus).
  split; [|split]; intros r t Hrun.
  - generalize (infer_POST_paths w req). rewrite Hrun. intros HP.
    by_path HP; auto. left. by cbn.
  - generalize (train_POST_paths w req). rewrite Hrun. intros HP.
    by_path HP; auto; split; try done; left; by cbn.
  - rewrite train_GET_run in Hrun. cbv zeta in Hrun.
    destruct (settle_stdout _); cbn in Hrun; simplify_eq; auto.
    split; [left; by cbn|done].
Qed.

(** X3.  A handler writes to [console.error] exactly when it answers with
    status 500, and then exactly once; a 200 or 400 response leaves the
    console untouched. *)
Theorem failures_are_logged_once (w : World) (req : Request) :
  logs_failures (fun r => status r = 500%Z) (run (Infer.POST w req))
  /\ logs_failures (fun r => status r = 500%Z) (run (Train.POST w req))
  /\ logs_failures (fun r => status r = 500%Z) (run (Train.GET w req)).
Proof.
  unfold logs_failures. split; [|split].
  - generalize (infer_POST_paths w req).
    generalize (run (Infer.POST w req)). intros res HP r Hr.
    by_path HP; cbn; (split; [intros ?; first [done|by do 2 eexists]|try done]).
  - generalize (train_POST_paths w req).
    generalize (run (Train.POST w req)). intros res HP r Hr.
    by_path HP; cbn; (split; [intros ?; first [done|by do 2 eexists]|try done]).
  - rewrite train_GET_run. cbv zeta. intros r Hr.
    destruct (settle_stdout _); cbn in *; simplify_eq;
      (split; [intros ?; first [done|by do 2 eexists]|try done]).
Qed.

(** X4.  Per request a handler creates at most one directory, writes at
    most one file and spawns at most one process, in that order: the
    inference handler's file-system and process effects are an initial
    segment of (mkdir uploads, write, spawn); the training [POST]'s of
    (mkdir temp, write, spawn) or, without a model update, of (mkdir temp,
    spawn); [GET] spawns the status process and does nothing else. *)
Theorem effects_in_order (w : World) (req : Request) :
  (exists p data args,
     io (run (Infer.POST w req)).2 `prefix_of`
       [Mkdir (path_join [cwd w; "uploads"]); WriteFile p data; Spawn "python" args])
  /\ (exists p data args,
        io (run (Train.POST w req)).2 `prefix_of`
          [Mkdir (path_join [cwd w; "temp"]); WriteFile p data; Spawn "python" args]
        \/ io (run (Train.POST w req)).2 =
           [Mkdir (path_join [cwd w; "temp"]); Spawn "python" args])
  /\ io (run (Train.GET w req)).2 =
     [Spawn "python" [Train.cli w; Some (EStr "--mode"); Some (EStr "status")]].
Proof.
  split; [|split].
  - generalize (infer_POST_paths w req).
    generalize (run (Infer.POST w req)). intros res HP.
    by_path HP; cbn; try by (exists "", [], []; eexists).
    all: by do 3 eexists; eexists.
  - generalize (train_POST_paths w req).
    generalize (run (Train.POST w req)). intros res HP.
    by_path HP; cbn; try by (exists "", [], []; left; eexists).
    1-4: by do 3 eexists; left; eexists.
    all: by exists "", [], (Train.base_args w fd); right.
  - rewrite train_GET_run. cbv zeta.
    by destruct (settle_stdout _).
  Unshelve. all: first [exact ""|exact []].
Qed.

(** X5.  The process is pointed at the file that was just written.  When
    the inference handler spawns, the upload's bytes were written to the path
    that follows [--image_path] in the arguments.  When the training [POST]
    spawns for a request carrying a model update, the update's bytes were
    written to the path that follows [--update_path]; for a request without
    one, nothing was written and the arguments end after the client id. *)
Theorem process_reads_what_was_written (w : World) (fd : FormData) (args : list Value) :
  (Spawn "python" args ∈ (run (Infer.POST w (Multipart fd))).2 ->
   exists name data p,
     get fd "image" = Some (EFile name data)
     /\ WriteFile p data ∈ (run (Infer.POST w (Multipart fd))).2
     /\ args !! 1%nat = Some (Some (EStr "--image_path"))
     /\ args !! 2%nat = Some (Some (EStr p)))
  /\ (Spawn "python" args ∈ (run (Train.POST w (Multipart fd))).2 ->
      match get fd "modelUpdate" with
      | Some (EFile name data) =>
          exists p,
            WriteFile p data ∈ (run (Train.POST w (Multipart fd))).2
            /\ args = Train.base_args w fd ++
                      [Some (EStr "--update_path"); Some (EStr p)]
      | _ =>
          args = Train.base_args w fd
          /\ forall p data, WriteFile p data ∉ (run (Train.POST w (Multipart fd))).2
      end).
Proof.
  split.
  - generalize (infer_POST_paths w (Multipart fd)).
    generalize (run (Infer.POST w (Multipart fd))). intros res HP Hin.
    by_path HP; cbn in Hin; inv_elem; simplify_eq.
    all: do 3 eexists; split; [done|]; split; [|done].
    all: apply list_elem_of_further, list_elem_of_here.
  - generalize (train_POST_paths w (Multipart fd)).
    generalize (run (Train.POST w (Multipart fd))). intros res HP Hin.
    by_path HP; cbn in Hin; inv_elem; simplify_eq.
    all: try match goal with Hget : get _ "modelUpdate" = _ |- _ => rewrite Hget end.
    1-3: eexists; split; [apply list_elem_of_further, list_elem_of_here|done].
    all: assert (Hnone :
           match get fd "modelUpdate" with
           | Some (EFile _ _) => False
           | _ => True
           end) by (destruct (get fd "modelUpdate") as [[]|]; done).
    all: destruct (get fd "modelUpdate") as [[]|]; try done.
    all: split; [done|]; intros p data Hw; cbn in Hw; inv_elem; done.
Qed.

(** X6.  The two routes treat a failing [mkdir] differently.  The training
    [POST] goes on when [mkdir] rejects with [EEXIST] (here shown for a
    request without a model update: the process is spawned), and answers 500
    without writing or spawning on any other code.  The inference handler
    answers 500 on every rejection of [mkdir], [EEXIST] included. *)
Theorem mkdir_failures (w : World) (fd : FormData) (code : string) :
  (mkdir_result w (path_join [cwd w; "temp"]) = Some "EEXIST" ->
   truthy (get fd "modelUpdate") = false ->
   (run (Train.POST w (Multipart fd))).2 !! 1%nat =
     Some (Spawn "python" (Train.base_args w fd)))
  /\ (mkdir_result w (path_join [cwd w; "temp"]) = Some code -> code <> "EEXIST" ->
      run (Train.POST w (Multipart fd)) =
      (Returned Train.failure,
       [Mkdir (path_join [cwd w; "temp"]);
        ConsoleError "Training error:" (FsError code)]))
  /\ (mkdir_result w (path_join [cwd w; "uploads"]) = Some code ->
      truthy (get fd "image") = true -> truthy (get fd "type") = true ->
      run (Infer.POST w (Multipart fd)) =
      (Returned Infer.failure,
       [Mkdir (path_join [cwd w; "uploads"]);
        ConsoleError "Inference error:" (FsError code)])).
Proof.
  split; [|split].
  - intros Hmk Hupdate. generalize (train_POST_paths w (Multipart fd)).
    generalize (run (Train.POST w (Multipart fd))). intros res HP.
    inversion HP; subst; try congruence; try done.
    all: match goal with Hget : get _ "modelUpdate" = _ |- _ =>
           rewrite Hget in Hupdate; cbn in Hupdate
         end; try done.
    match goal with Hs : _ <> "" |- _ =>
      apply String.eqb_neq in Hs; by rewrite Hs in Hupdate
    end.
  - intros Hmk Hcode. generalize (train_POST_paths w (Multipart fd)).
    generalize (run (Train.POST w (Multipart fd))). intros res HP.
    inversion HP; subst; try congruence.
    all: match goal with Hr : Train.temp_ready _ |- _ => destruct Hr; congruence end.
  - intros Hmk Himage Htype. generalize (infer_POST_paths w (Multipart fd)).
    generalize (run (Infer.POST w (Multipart fd))). intros res HP.
    inversion HP as [|? [?|?]| | | |]; subst;
      repeat match goal with x := _ |- _ => subst x end; congruence.
Qed.

(** X7.  Output that is not JSON is treated like a crash: when the spawned
    process exits with code zero but its [stdout] does not parse, each
    handler answers its generic failure envelope with status 500, whatever
    the process wrote to [stderr]. *)
Theorem unparseable_output_fails (w : World) (req : Request)
    (cmd : string) (args : list Value) (out err : list string) :
  child w cmd args = Closes (Some 0%Z) out err ->
  JSON_parse (collect out) = None ->
  (forall o t, run (Infer.POST w req) = (o, t) -> Spawn cmd args ∈ t ->
     o = Returned Infer.failure)
  /\ (forall o t, run (Train.POST w req) = (o, t) -> Spawn cmd args ∈ t ->
        o = Returned Train.failure)
  /\ (forall o t, run (Train.GET w req) = (o, t) -> Spawn cmd args ∈ t ->
        o = Returned Train.status_failure).
Proof.
  intros Hchild Hparse.
  assert (Hsettle : exists e, settle (child w cmd args) = Thrown e).
  { rewrite Hchild. cbn. rewrite Hparse. rewrite decide_True by done.
    destruct (truthy_str _); eauto. }
  destruct Hsettle as [e Hsettle].
  split; [|split]; intros o t Hrun Hin.
  - destruct (infer_POST_spawned _ _ _ _ _ _ Hrun Hin) as [file ->].
    by rewrite Hsettle.
  - rewrite (train_POST_spawned _ _ _ _ _ _ Hrun Hin). by rewrite Hsettle.
  - rewrite (train_GET_spawned _ _ _ _ _ _ Hrun Hin), Hchild. cbn.
    rewrite decide_True by done. by rewrite Hparse.
Qed.

(** X8.  The inference handler treats an empty text value like a missing
    field: a request whose [type] (or [image]) is the empty string is
    answered with the status-400 envelope and without any effect. *)
Theorem empty_field_is_missing (w : World) (fd : FormData) :
  get fd "type" = Some (EStr "") \/ get fd "image" = Some (EStr "") ->
  run (Infer.POST w (Multipart fd)) = (Returned Infer.missing_fields, [])
  /\ status Infer.missing_fields = 400%Z.
Proof.
  intros Hempty. split; [|done].
  generalize (infer_POST_paths w (Multipart fd)).
  generalize (run (Infer.POST w (Multipart fd))). intros res HP.
  inversion HP as [|? [?|?]| | | |]; subst; try done.
  all: destruct Hempty as [Hempty|Hempty]; rewrite Hempty in *; done.
Qed.

(** X9.  A text value where a file is expected passes the presence check
    and then fails: an [image] sent as non-empty text makes the inference
    handler answer 500 after creating the uploads directory; a [modelUpdate]
    sent as non-empty text makes the training [POST] answer 500 after
    creating the temp directory.  In both cases nothing is written and no
    process is spawned. *)
Theorem text_instead_of_file (w : World) (fd : FormData) (s : string) :
  s <> "" ->
  (get fd "image" = Some (EStr s) -> truthy (get fd "type") = true ->
   (run (Infer.POST w (Multipart fd))).1 = Returned Infer.failure
   /\ io (run (Infer.POST w (Multipart fd))).2 = [Mkdir (path_join [cwd w; "uploads"])])
  /\ (get fd "modelUpdate" = Some (EStr s) ->
      (run (Train.POST w (Multipart fd))).1 = Returned Train.failure
      /\ io (run (Train.POST w (Multipart fd))).2 = [Mkdir (path_join [cwd w; "temp"])]).
Proof.
  intros Hs. split.
  - intros Himage Htype. generalize (infer_POST_paths w (Multipart fd)).
    generalize (run (Infer.POST w (Multipart fd))). intros res HP.
    assert (truthy (get fd "image") = true).
    { rewrite Himage. cbn. by apply String.eqb_neq in Hs as ->. }
    inversion HP as [|? [?|?]| | | |]; subst; try congruence; done.
  - intros Hupdate. generalize (train_POST_paths w (Multipart fd)).
    generalize (run (Train.POST w (Multipart fd))). intros res HP.
    inversion HP; subst; try congruence; try done.
    match goal with Hu : truthy (get _ "modelUpdate") = false |- _ =>
      rewrite Hupdate in Hu; cbn in Hu;
      apply String.eqb_neq in Hs; by rewrite Hs in Hu
    end.
Qed.

End RelayExtras.

(** ** The analysis form and the inference route behind it *)

Section AnalysisExtras.
Import Js Relay Envelope Dom MedicalAnalysis.
Context {rt : Runtime}.
Variable doc_truthy : Doc -> bool.

(** The form data [handleAnalyze] builds for a selected file. *)
Lemma analyze_request net st f :
  selectedFile st = Some f ->
  (handleAnalyze doc_truthy net st).2 =
  [Fetch "/api/infer" "POST"
     [("image", EFile (name f) (bytes f)); ("type", EStr (type_string (imageType st)))]].
Proof.
  intros Hf. unfold MedicalAnalysis.handleAnalyze. rewrite Hf. cbn.
  by destruct (net _ _ _).
Qed.

(** X10.  [handleAnalyze] sends a request exactly when a file is selected:
    without one it changes nothing and sends nothing; with one it sends a
    single [POST] to [/api/infer] whose body has exactly the parts [image]
    and [type] (no patient name or id).  The [loading] flag is false again
    once the request settles either way, and stays true, with the
    button disabled, if it never settles.  The selected file and type are
    untouched throughout. *)
Theorem analyze_sends_one_request (net : Network) (st : State) :
  match selectedFile st with
  | None => handleAnalyze doc_truthy net st = (st, [])
  | Some f =>
      let body := [("image", EFile (name f) (bytes f));
                   ("type", EStr (type_string (imageType st)))] in
      let st' := (handleAnalyze doc_truthy net st).1 in
      (handleAnalyze doc_truthy net st).2 = [Fetch "/api/infer" "POST" body]
      /\ loading st' = (if net "/api/infer" "POST" body is Unsettled then true else false)
      /\ (loading st' = true -> analyze_disabled st' = true)
      /\ selectedFile st' = selectedFile st
      /\ imageType st' = imageType st
  end.
Proof.
  destruct (selectedFile st) as [f|] eqn:Hf.
  - cbv zeta. rewrite (analyze_request net st f Hf).
    unfold MedicalAnalysis.handleAnalyze, analyze_disabled. rewrite Hf. cbn.
    destruct (net _ _ _) as [data| |]; cbn;
      [destruct (field_truthy _ _); cbn|..]; by rewrite ?Hf.
  - unfold MedicalAnalysis.handleAnalyze. by rewrite Hf.
Qed.


(** The request of the analysis form is never short of a field. *)
Lemma analysis_request_complete st f :
  let fd := [("image", entry f); ("type", EStr (type_string (imageType st)))] in
  get fd "image" = Some (EFile (name f) (bytes f))
  /\ truthy (get fd "type") = true
  /\ get fd "patientId" = None /\ get fd "patientName" = None.
Proof. by destruct (imageType st). Qed.

(** X12.  An upload made through the analysis form is never rejected with
    status 400, but it is stored without a patient: whenever the inference
    handler writes the file, it writes the selected file's bytes under the
    name [null_<clock>_<file name>], and whenever it spawns the process, the
    values after [--patient_id] and [--patient_name] are [null]. *)
Theorem analysis_upload_has_no_patient (w : World) (st : State) (f : File) :
  let fd := [("image", entry f); ("type", EStr (type_string (imageType st)))] in
  let res := run (Infer.POST w (Multipart fd)) in
  (forall r, res.1 = Returned r -> status r <> 400%Z)
  /\ (forall p data, WriteFile p data ∈ res.2 ->
        data = bytes f
        /\ p = path_join [path_join [cwd w; "uploads"];
                          "null_" +:+ number_to_string (now w) +:+ "_" +:+ name f])
  /\ (forall args, Spawn "python" args ∈ res.2 ->
        args !! 5%nat = Some (Some (EStr "--patient_id")) /\ args !! 6%nat = Some None
        /\ args !! 7%nat = Some (Some (EStr "--patient_name")) /\ args !! 8%nat = Some None).
Proof.
  intros fd res. destruct (analysis_request_complete st f) as (Himage & Htype & Hid & Hname).
  fold fd in Himage, Htype, Hid, Hname.
  assert (Htruthy : truthy (get fd "image") = true) by by rewrite Himage.
  assert (Hfile : Infer.fileName (get fd "patientId") (now w) (get fd "image") =
                  "null_" +:+ number_to_string (now w) +:+ "_" +:+ name f).
  { unfold Infer.fileName. by rewrite Hid, Himage. }
  unfold res. generalize (infer_POST_paths w (Multipart fd)).
  generalize (run (Infer.POST w (Multipart fd))). clear res. intros res HP.
  inversion HP as [|? [?|?]| | | |]; subst; try congruence;
    repeat match goal with x := _ |- _ => subst x end;
    (split; [|split]); cbn [fst snd app].
  - by intros r [= <-].
  - intros p data Hin. inv_elem; done.
  - intros args Hin. inv_elem; done.
  - by intros r [= <-].
  - intros p data Hin. inv_elem; simplify_eq. split; [congruence|reflexivity].
  - intros args Hin. inv_elem; done.
  - intros r Hr. destruct (settle _); cbn in Hr; by simplify_eq.
  - intros p data Hin. inv_elem; simplify_eq.
    + split; [congruence|reflexivity].
    + by apply respond_write_free in Hin.
  - intros args Hin. inv_elem; simplify_eq.
    + done.
    + by apply respond_spawn_free in Hin.
Qed.

(** X13.  The analysis form in front of the inference route.  When the
    handler answers 200 the form stores the parsed document as its analysis
    and keeps its previous error; when the handler answers anything else the
    form shows the handler's own message, "Inference failed", and keeps its
    previous analysis; when the handler never answers the form stays in
    [loading]. *)
Theorem analysis_round_trip (w : World) (st : State) (f : File) :
  selectedFile st = Some f ->
  let fd := [("image", entry f); ("type", EStr (type_string (imageType st)))] in
  let st' := (handleAnalyze doc_truthy (deployed w) st).1 in
  match (run (Infer.POST w (Multipart fd))).1 with
  | Returned r =>
      loading st' = false
      /\ if decide (status r = 200%Z) then
           (exists x, body r !! 1%nat = Some ("result", FDoc x)
                      /\ analysis st' = Some (FDoc x))
           /\ error st' = error st
         else
           error st' = Some (FStr "Inference failed") /\ analysis st' = analysis st
  | Thrown _ => False
  | Stuck => loading st' = true
  end.
Proof.
  intros Hf fd st'. subst st'.
  unfold MedicalAnalysis.handleAnalyze, deployed. rewrite Hf. cbn. fold fd.
  destruct (analysis_request_complete st f) as (Himage & Htype & _).
  fold fd in Himage, Htype.
  assert (Htruthy : truthy (get fd "image") = true) by by rewrite Himage.
  generalize (infer_POST_paths w (Multipart fd)).
  generalize (run (Infer.POST w (Multipart fd))). intros res HP.
  inversion HP as [|? [?|?]| | | |]; subst; try congruence;
    repeat match goal with r := respond _ _ _ _ |- _ => subst r end;
    try (destruct (settle _)); cbn; try done.
  split; [done|]. split; [|done]. by eexists.
Qed.

Lemma analyze_keeps_selection net st :
  selectedFile (handleAnalyze doc_truthy net st).1 = selectedFile st.
Proof.
  unfold MedicalAnalysis.handleAnalyze.
  destruct (selectedFile st) as [f|] eqn:Hf; [|done]. cbn.
  destruct (net _ _ _) as [data| |]; cbn; [|done..].
  by destruct (field_truthy _ _).
Qed.

Lemma step_keeps_selection net (p : State * list Effect) (ev : Event) :
  is_Some (selectedFile p.1) ->
  is_Some (selectedFile (step doc_truthy net p ev).1).
Proof.
  destruct p as [st sent]. cbn [fst]. intros [f Hf].
  destruct ev as [files|t|]; cbn [step].
  - unfold handleFileChange. destruct (first_file files); cbn; [done|by rewrite Hf].
  - cbn. by rewrite Hf.
  - destruct (analyze_disabled st); cbn [fst]; [by rewrite Hf|].
    pose proof (analyze_keeps_selection net st) as Hsel.
    destruct (handleAnalyze doc_truthy net st) as [st' effects]. cbn in *.
    by rewrite Hsel, Hf.
Qed.

(** X28.  A selection on the analysis form can be replaced but not taken
    back: once a file is selected, one stays selected through every later
    pick, cancelled file dialog, change of type and analysis.  A cancelled
    dialog keeps the file and still clears the error; and the type sent is
    the one selected when the button is clicked, not the one under which the
    file was picked. *)
Theorem selection_is_permanent (net : Network) (events : list Event)
    (st : State) (f : File) :
  selectedFile st = Some f ->
  is_Some (selectedFile (play doc_truthy net events st).1)
  /\ (forall files, first_file files = None ->
        selectedFile (handleFileChange files st) = Some f
        /\ error (handleFileChange files st) = None
        /\ analysis (handleFileChange files st) = analysis st)
  /\ (forall t, loading st = false ->
        (play doc_truthy net [SelectType t; Analyze] st).2 =
        [Fetch "/api/infer" "POST"
           [("image", entry f); ("type", EStr (type_string t))]]).
Proof.
  intros Hf. split; [|split].
  - unfold play. generalize (@nil Effect) as sent.
    assert (Hsome : is_Some (selectedFile st)) by by rewrite Hf.
    clear Hf. revert st Hsome.
    induction events as [|ev events IH]; intros st Hsome sent; [done|].
    cbn [foldl].
    pose proof (step_keeps_selection net (st, sent) ev Hsome) as Hstep.
    destruct (step doc_truthy net (st, sent) ev) as [st' sent'].
    by apply IH.
  - intros files Hnone. unfold handleFileChange. rewrite Hnone. by cbn.
  - intros t Hloading. unfold play. cbn [foldl step].
    unfold analyze_disabled. cbn [setImageType selectedFile loading].
    rewrite Hf, Hloading.
    pose proof (analyze_request net (setImageType t st) f) as Hsent.
    cbn [setImageType selectedFile imageType] in Hsent. specialize (Hsent Hf).
    destruct (handleAnalyze doc_truthy net (setImageType t st)) as [st' effects].
    cbn in *. by rewrite Hsent.
Qed.

End AnalysisExtras.

(** ** The upload form *)

Section UploadExtras.
Import Dom UploadImage.
Variable object_url : nat -> string.

Lemma filter_index_delete {A} (l : list A) (from index : nat) :
  filter_index (fun i => negb (Nat.eqb i index)) from l =
  if decide (from <= index) then delete (index - from) l else l.
Proof.
  revert from. induction l as [|x l IH]; intros from; cbn.
  { by case_decide. }
  rewrite IH. destruct (Nat.eqb_spec from index) as [->|Hne]; cbn.
  - rewrite Nat.sub_diag. rewrite (decide_True (P := index <= index)) by lia.
    by rewrite decide_False by lia.
  - destruct (decide (S from <= index)) as [Hle|Hgt].
    + rewrite decide_True by lia.
      by replace (index - from) with (S (index - S from)) by lia.
    + by rewrite decide_False by lia.
Qed.

(** X14.  [removeImage] removes the image at the given position and
    nothing else: the images before it keep their place, those after it move
    up by one, and the list is one shorter.  An index past the end leaves the
    form unchanged. *)
Theorem remove_image_at (index : nat) (st : State) :
  images (removeImage index st) = take index (images st) ++ drop (S index) (images st)
  /\ (forall j, j < index -> images (removeImage index st) !! j = images st !! j)
  /\ (forall j, index <= j -> images (removeImage index st) !! j = images st !! S j)
  /\ (index < length (images st) ->
      S (length (images (removeImage index st))) = length (images st))
  /\ (length (images st) <= index -> removeImage index st = st).
Proof.
  assert (Himages : images (removeImage index st) = delete index (images st)).
  { cbn. rewrite filter_index_delete, decide_True by lia. by rewrite Nat.sub_0_r. }
  rewrite Himages. split; [apply delete_take_drop|].
  split; [intros j Hj; by apply list_lookup_delete_lt|].
  split; [intros j Hj; by apply list_lookup_delete_ge|].
  split.
  - intros Hlt. rewrite length_delete; [lia|]. by apply lookup_lt_is_Some_2.
  - intros Hge. destruct st as [imgs n i t u]. unfold removeImage. cbn in *.
    f_equal. rewrite filter_index_delete, decide_True by lia.
    rewrite Nat.sub_0_r. rewrite delete_take_drop, take_ge, drop_ge by lia.
    by rewrite app_nil_r.
Qed.

Lemma previews_files from files :
  file <$> previews object_url from files = files.
Proof.
  unfold previews. revert from. induction files as [|f files IH]; intros from; [done|].
  cbn. f_equal. rewrite <- (IH (S from)) at 2. unfold fmap. f_equal.
  apply imap_ext. intros i x _. cbn. do 2 f_equal. lia.
Qed.

Lemma previews_urls from files :
  preview <$> previews object_url from files = object_url <$> seq from (length files).
Proof.
  unfold previews. revert from. induction files as [|f files IH]; intros from; [done|].
  cbn. rewrite Nat.add_0_r. f_equal. rewrite <- IH.
  f_equal. apply imap_ext. intros i x _. cbn. do 2 f_equal. lia.
Qed.

(** X15.  [handleImageUpload] appends: the images already on the form stay
    where they are, the chosen files follow in the order chosen, each with
    the next unused object URL; dismissing the file dialog changes nothing.
    The text fields are never touched. *)
Theorem upload_appends (files : option (list File)) (st : State) :
  let st' := handleImageUpload object_url files st in
  file <$> images st' = (file <$> images st) ++ default [] files
  /\ preview <$> images st' =
     (preview <$> images st) ++
     (object_url <$> seq (urls_created st) (length (default [] files)))
  /\ (forall i, i < length (images st) -> images st' !! i = images st !! i)
  /\ (default [] files = [] -> st' = st)
  /\ patientName st' = patientName st /\ patientId st' = patientId st
  /\ imageType st' = imageType st.
Proof.
  set (chosen := default [] files). cbv zeta.
  unfold handleImageUpload. fold chosen. cbn [images patientName patientId imageType].
  rewrite !fmap_app, previews_files, previews_urls.
  repeat split.
  - intros i Hi. by rewrite lookup_app_l.
  - intros ->. destruct st. cbn. by rewrite app_nil_r, Nat.add_0_r.
Qed.

(** Every preview on the form is one of the object URLs handed out so
    far, in the order they were handed out. *)
Lemma previews_are_issued (events : list Event) (st : State) :
  (preview <$> images st) `sublist_of` (object_url <$> seq 0 (urls_created st)) ->
  (preview <$> images (play object_url events st).1)
    `sublist_of` (object_url <$> seq 0 (urls_created (play object_url events st).1)).
Proof.
  unfold play. generalize (@nil Effect) as acc.
  revert st. induction events as [|ev events IH]; intros st acc Hst; [done|].
  cbn [foldl]. destruct ev as [files| index | s | s | s |]; cbn [step handleSubmit];
    try (apply IH; exact Hst).
  - apply IH. cbn [handleImageUpload images urls_created].
    rewrite fmap_app, previews_urls, seq_app, fmap_app. by apply sublist_app.
  - apply IH. cbn [removeImage images urls_created].
    rewrite filter_index_delete, decide_True, Nat.sub_0_r by lia.
    etrans; [|exact Hst]. rewrite list_fmap_delete. apply sublist_delete.
  - apply IH. cbn. apply sublist_nil_l.
Qed.

(** X16.  If the browser never hands out the same object URL twice, no two
    images on the upload form ever share a preview, whatever sequence of
    picking, removing, typing and submitting led there. *)
Theorem previews_stay_distinct (events : list Event) :
  Inj (=) (=) object_url ->
  NoDup (preview <$> images (play object_url events init).1).
Proof.
  intros Hinj. eapply sublist_NoDup; [|apply previews_are_issued; apply sublist_nil_l].
  apply NoDup_fmap_2; [done|]. apply NoDup_seq.
Qed.

(** The effects of a run of the form only grow, by one console line per
    submit. *)
Lemma play_effects (events : list Event) (st : State) (acc : list Effect) :
  (foldl (step object_url) (st, acc) events).2 =
  acc ++ replicate (length (List.filter (fun ev => if ev is Submit then true else false)
                                    events))
            (Log "Submitting:").
Proof.
  revert st acc. induction events as [|ev events IH]; intros st acc; cbn [foldl].
  { cbn. by rewrite app_nil_r. }
  destruct ev; cbn [step handleSubmit List.filter length]; rewrite IH; try done.
  cbn. by rewrite <- app_assoc.
Qed.

(** X17.  The upload form never talks to the server: whatever the user
    does, its handlers issue no request.  All they do besides updating the
    form is to write one line to the console per submit, and a submit empties
    the form, so the chosen images are dropped. *)
Theorem upload_form_sends_nothing (events : list Event) :
  Forall (fun e => is_fetch e = false) (play object_url events init).2
  /\ (play object_url events init).2 =
     replicate (length (List.filter (fun ev => if ev is Submit then true else false)
                          events))
       (Log "Submitting:")
  /\ images (play object_url (events ++ [Submit]) init).1 = []
  /\ patientName (play object_url (events ++ [Submit]) init).1 = ""
  /\ patientId (play object_url (events ++ [Submit]) init).1 = "".
Proof.
  split; [|split].
  - unfold play. rewrite play_effects. cbn. apply Forall_replicate. done.
  - unfold play. by rewrite play_effects.
  - unfold play. rewrite foldl_app. cbn.
    by destruct (foldl _ _ events) as [st acc].
Qed.

End UploadExtras.

(** ** The settings page *)

Section SettingsExtras.
Import Settings.

Lemma toggle_other (c c' : Channel) (st : State) :
  enabled c' (notifications (toggle c st)) =
  xorb (enabled c' (notifications st)) (is_toggle c' (Toggle c)).
Proof. destruct c, c'; cbn; by rewrite ?xorb_true_r, ?xorb_false_r. Qed.

(** X18.  After any sequence of clicks on the settings page, a
    notification channel is on exactly when its initial value has been
    flipped an odd number of times by its own button: toggling one channel
    never changes another, and picking a theme never changes any. *)
Theorem notification_parity (events : list Event) (st : State) (c : Channel) :
  enabled c (notifications (play events st)) =
  xorb (enabled c (notifications st)) (Nat.odd (toggles c events)).
Proof.
  unfold play, toggles. revert st.
  induction events as [|ev events IH]; intros st; cbn [foldl List.filter].
  { cbn. by rewrite xorb_false_r. }
  rewrite IH. destruct ev as [c'|t]; cbn [step].
  - rewrite toggle_other. destruct (is_toggle c (Toggle c')); cbn [length].
    + rewrite Nat.odd_succ, <- Nat.negb_odd.
      by destruct (enabled c _), (Nat.odd _).
    + by rewrite xorb_false_r.
  - done.
Qed.

End SettingsExtras.

(** ** Pan and zoom, further *)

Section PanExtras.
Import PatientDetail PatientDetailUI.
Open Scope Z_scope.

Lemma step_on_grid st op :
  on_grid (imagePosition st) -> on_grid (imagePosition (step st op)).
Proof. unfold on_grid. destruct op; cbn; lia. Qed.

Lemma steps_on_grid ops st :
  on_grid (imagePosition st) -> on_grid (imagePosition (steps ops st)).
Proof.
  revert st. induction ops as [|op ops IH]; intros st Hst; [done|].
  by apply IH, step_on_grid.
Qed.

(** X19.  The pan position only ever takes the five values 0, -50, -100,
    -150 and -200, and each of them is reached by some sequence of
    operations. *)
Theorem pan_positions (ops : list Op) (x : Z) :
  on_grid (imagePosition (steps ops init))
  /\ (on_grid x -> exists ops', imagePosition (steps ops' init) = x).
Proof.
  split.
  - apply steps_on_grid. unfold on_grid. cbn. lia.
  - intros Hx. exists (replicate (Z.to_nat (- x / 50)) PanRight).
    destruct Hx as [->|[->|[->|[->| ->]]]]; reflexivity.
Qed.

(** X20.  A pan button is disabled exactly when its handler would change
    nothing: for a position within [-200, 0], pan-left is disabled iff
    panning left leaves the state as it is, and likewise for pan-right. *)
Theorem disabled_iff_no_effect (st : State) :
  in_range st ->
  (left_disabled st = true <-> handlePan left st = st)
  /\ (right_disabled st = true <-> handlePan right st = st).
Proof.
  unfold in_range, left_disabled, right_disabled, handlePan.
  destruct st as [zoomed x]. cbn. intros Hx.
  rewrite !Z.leb_le. split; split; intros H; try (f_equal; lia).
  all: injection H; lia.
Qed.

(** X21.  Panning is reversible away from the ends: in every reachable
    state, if pan-right is enabled then panning right and then left returns
    to the same state, and if pan-left is enabled then panning left and then
    right does. *)
Theorem pan_round_trip (ops : list Op) :
  let st := steps ops init in
  (right_disabled st = false -> handlePan left (handlePan right st) = st)
  /\ (left_disabled st = false -> handlePan right (handlePan left st) = st).
Proof.
  cbv zeta. pose proof (steps_on_grid ops init) as Hgrid.
  destruct (steps ops init) as [zoomed x]. cbn in Hgrid.
  unfold on_grid, right_disabled, left_disabled, handlePan in *. cbn.
  rewrite !Z.leb_gt.
  split; intros Hen; f_equal; lia.
Qed.

Lemma click_keeps_rest st op :
  (imageZoomed st = false -> imagePosition st = 0) ->
  imageZoomed (click st op) = false -> imagePosition (click st op) = 0.
Proof.
  intros Hst. destruct st as [zoomed x]. cbn in Hst.
  destruct op; cbn; [| |done].
  all: destruct zoomed; cbn; [by case_match|exact Hst].
Qed.

(** X22.  Through the buttons as rendered, the stored position is 0
    whenever the image is not zoomed (so the image is drawn at offset 0 and
    zooming in always starts centred), it stays within [-200, 0], and a click
    on a disabled or unrendered pan button does nothing. *)
Theorem unzoomed_is_centred (ops : list Op) :
  let st := clicks ops init in
  (imageZoomed st = false -> imagePosition st = 0)
  /\ offset st = imagePosition st
  /\ in_range st
  /\ (imageZoomed st = false -> click st PanLeft = st /\ click st PanRight = st)
  /\ (left_disabled st = true -> click st PanLeft = st)
  /\ (right_disabled st = true -> click st PanRight = st).
Proof.
  cbv zeta.
  assert (Hinv : forall st,
            (imageZoomed st = false -> imagePosition st = 0) /\ in_range st ->
            (imageZoomed (clicks ops st) = false -> imagePosition (clicks ops st) = 0)
            /\ in_range (clicks ops st)).
  { unfold clicks. induction ops as [|op ops IH]; intros st [Hz Hr]; [done|].
    cbn [foldl]. apply IH. split; [by apply click_keeps_rest|].
    destruct op; cbn; repeat case_match; try done; try apply handlePan_in_range. }
  destruct (Hinv init) as [Hz Hr]; [split; [done|unfold in_range; cbn; lia]|].
  split; [done|]. split.
  { unfold offset. destruct (imageZoomed _) eqn:E; [done|]. by rewrite Hz. }
  split; [done|]. split.
  { intros E. cbn. by rewrite E. }
  split; intros E; cbn; rewrite E; cbn; by rewrite andb_false_r.
Qed.

End PanExtras.

(** ** The report table *)

Section ReportExtras.
Import PatientReports.

Lemma find_spec (reports : list PatientReport) (wanted : string) :
  match find reports wanted with
  | Some r => id r = wanted /\ (r ∈ reports)
  | None => wanted ∉ id <$> reports
  end.
Proof.
  induction reports as [|r reports IH]; cbn [find fmap list_fmap].
  { apply not_elem_of_nil. }
  destruct (String.eqb_spec (id r) wanted) as [Heq|Hne].
  - split; [done|apply list_elem_of_here].
  - destruct (find reports wanted) as [r'|].
    + destruct IH. split; [done|by apply list_elem_of_further].
    + rewrite not_elem_of_cons. by split.
Qed.

(** X23.  The patient-detail view shows a report exactly for the route ids
    "1" to "5", and then the report carrying that id; for every other id it
    stays on the loading placeholder: there is no not-found state. *)
Theorem report_lookup (route_id : string) :
  match effect route_id with
  | Some r =>
      id r = route_id /\ (r ∈ patientReports)
      /\ (route_id ∈ ["1"; "2"; "3"; "4"; "5"])
      /\ render (effect route_id) = Report r
  | None =>
      (route_id ∉ ["1"; "2"; "3"; "4"; "5"])
      /\ render (effect route_id) = Loading
  end.
Proof.
  assert (Hids : id <$> patientReports = ["1"; "2"; "3"; "4"; "5"]) by reflexivity.
  pose proof (find_spec patientReports route_id) as Hfind.
  unfold effect. destruct (find patientReports route_id) as [r|].
  - destruct Hfind as [Hid Hin]. repeat split; try done.
    rewrite <- Hids, <- Hid. by apply list_elem_of_fmap_2.
  - by rewrite <- Hids.
Qed.

End ReportExtras.

(** ** Login and the shell, further *)

Section LoginExtras.
Import Browser Login.

Lemma step_error_sticks (p : Login.State * Browser.State) (ev : LoginForm.Event) :
  error p.1 = "Please select a role" ->
  error (LoginForm.step p ev).1 = "Please select a role".
Proof.
  destruct p as [st b]. intros Herr. destruct ev; cbn; try done.
  unfold handleSubmit. by repeat case_match.
Qed.

(** X24.  The login form never takes its error back: once "Please select
    a role" is shown, it stays through every later selection, keystroke and
    submit, successful ones included. *)
Theorem login_error_sticks (events : list LoginForm.Event)
    (p : Login.State * Browser.State) :
  error p.1 = "Please select a role" ->
  error_banner (LoginForm.play events p).1 = Some "Please select a role".
Proof.
  intros Herr.
  assert (Hplay : error (LoginForm.play events p).1 = "Please select a role").
  { unfold LoginForm.play. revert p Herr.
    induction events as [|ev events IH]; intros p Herr; [done|].
    cbn [foldl]. by apply IH, step_error_sticks. }
  unfold error_banner. by rewrite Hplay.
Qed.

(** X25.  With a role selected but the email or the password empty,
    submitting does nothing at all: no cookie, no navigation and no error
    message. *)
Theorem empty_credentials_do_nothing (st : Login.State) (b : Browser.State) :
  is_Some (selectedRole st) ->
  email st = "" \/ password st = "" ->
  handleSubmit st b = (st, b)
  /\ error_banner (handleSubmit st b).1 = error_banner st.
Proof.
  intros [role Hrole] Hempty.
  assert (Hsubmit : handleSubmit st b = (st, b)).
  { unfold handleSubmit. rewrite Hrole.
    destruct Hempty as [-> | ->]; cbn; [done|by rewrite andb_false_r]. }
  by rewrite Hsubmit.
Qed.

(** X26.  Logging in and then loading the dashboard shell: after a
    successful submit the shell reads back the role just stored, does not
    redirect, and renders the sidebar for that role at ["/dashboard"], with
    "Upload Images" among the links exactly for a radiologist. *)
Theorem login_then_dashboard (st : Login.State) (b : Browser.State) (role : UserRole) :
  selectedRole st = Some role -> email st <> "" -> password st <> "" ->
  let b' := (handleSubmit st b).2 in
  getCookie "userRole" b' = Some (role_string role)
  /\ DashboardLayout.load b' =
     (DashboardLayout.Shell (Sidebar.nav (role_string role) "/dashboard"),
      (Some (role_string role), b'))
  /\ ("Upload Images" ∈ Sidebar.text <$> Sidebar.nav (role_string role) "/dashboard"
      <-> role = radiologist).
Proof.
  intros Hrole Hemail Hpassword b'.
  assert (Hcookie : getCookie "userRole" b' = Some (role_string role)).
  { subst b'. unfold handleSubmit, Js.truthy_str, getCookie.
    apply String.eqb_neq in Hemail, Hpassword.
    rewrite Hrole, Hemail, Hpassword. cbn. by rewrite lookup_insert_eq. }
  split; [done|]. split.
  - rewrite (load_with_role b' (role_string role) Hcookie) by by destruct role.
    subst b'. unfold handleSubmit, Js.truthy_str.
    apply String.eqb_neq in Hemail, Hpassword.
    rewrite Hrole, Hemail, Hpassword. reflexivity.
  - rewrite nav_texts. destruct role; split; try done.
    + intros Hin. exfalso. revert Hin. compute_done.
    + intros _. compute_done.
Qed.

(** X27.  The shell takes the cookie's word for the role.  An empty value
    is treated like no cookie: redirect to the login view.  Any other value
    is accepted, and one that is neither ["doctor"] nor ["radiologist"]
    yields the shell with an empty sidebar, since no menu item lists it. *)
Theorem unknown_role_cookie (b : Browser.State) (v : string) :
  getCookie "userRole" b = Some v ->
  (v = "" -> DashboardLayout.load b = (DashboardLayout.Loading, (None, push "/" b)))
  /\ (v <> "" -> v <> "doctor" -> v <> "radiologist" ->
      DashboardLayout.load b = (DashboardLayout.Shell [], (Some v, b))).
Proof.
  intros Hcookie. split.
  - intros ->. unfold DashboardLayout.load, DashboardLayout.effect.
    by rewrite Hcookie.
  - intros Hv Hd Hr. rewrite (load_with_role b v Hcookie Hv).
    do 2 f_equal. unfold Sidebar.nav, Sidebar.visible, Sidebar.menuItems.
    assert (Hno : forall l, l = ["doctor"; "radiologist"] \/ l = ["radiologist"] ->
                       v ∉ l).
    { intros l [-> | ->]; rewrite ?not_elem_of_cons; repeat split; auto;
        apply not_elem_of_nil. }
    cbn [filter list_filter]. 
    rewrite !decide_False by (cbn; apply Hno; auto). done.
Qed.

End LoginExtras.

(** ** Closed instances of the further properties *)

Section ExtraInstances.
Import Js Relay Envelope Dom.
#[local] Existing Instance Demo.runtime.

Lemma process_reads_what_was_written_witness :
  (exists p,
     WriteFile p [Byte.x44; Byte.x49; Byte.x43; Byte.x4d]
       ∈ (run (Infer.POST (Demo.world Demo.clean_exit) (Multipart Demo.scan_upload))).2
     /\ Infer.spawn_args (Demo.world Demo.clean_exit) Demo.scan_upload
          "/srv/app/uploads/42_1700000000000_scan.dcm" !! 2%nat = Some (Some (EStr p)))
  /\ (exists p,
        WriteFile p [Byte.x50; Byte.x4b]
          ∈ (run (Train.POST (Demo.world Demo.clean_exit)
                    (Multipart Samples.submit_update))).2).
Proof.
  split.
  - destruct (process_reads_what_was_written (Demo.world Demo.clean_exit)
                Demo.scan_upload
                (Infer.spawn_args (Demo.world Demo.clean_exit) Demo.scan_upload
                   "/srv/app/uploads/42_1700000000000_scan.dcm")) as [Hinfer _].
    destruct Hinfer as (name & data & p & Hget & Hwrite & _ & Harg).
    { vm_compute. apply list_elem_of_further, list_elem_of_further, list_elem_of_here. }
    injection Hget as _ <-. by exists p.
  - destruct (process_reads_what_was_written (Demo.world Demo.clean_exit)
                Samples.submit_update
                (Train.base_args (Demo.world Demo.clean_exit) Samples.submit_update ++
                 [Some (EStr "--update_path");
                  Some (EStr "/srv/app/temp/update_hospital-a_1700000000000.pt")]))
      as [_ Htrain].
    destruct Htrain as (p & Hwrite & _).
    { vm_compute. apply list_elem_of_further, list_elem_of_further, list_elem_of_here. }
    by exists p.
Defined.

Lemma mkdir_failures_witness :
  (run (Train.POST (Samples.world_without_mkdir "EEXIST" Demo.clean_exit)
          (Multipart Demo.start_round))).2 !! 1%nat =
    Some (Spawn "python"
            (Train.base_args (Samples.world_without_mkdir "EEXIST" Demo.clean_exit)
               Demo.start_round))
  /\ (run (Train.POST (Samples.world_without_mkdir "EACCES" Demo.clean_exit)
             (Multipart Demo.start_round))).1 = Returned Train.failure
  /\ (run (Infer.POST (Samples.world_without_mkdir "EEXIST" Demo.clean_exit)
             (Multipart Demo.scan_upload))).1 = Returned Infer.failure.
Proof.
  split; [|split].
  - apply (mkdir_failures (Samples.world_without_mkdir "EEXIST" Demo.clean_exit)
             Demo.start_round "EEXIST"); reflexivity.
  - destruct (mkdir_failures (Samples.world_without_mkdir "EACCES" Demo.clean_exit)
                Demo.start_round "EACCES") as (_ & Hother & _).
    rewrite Hother; [reflexivity|reflexivity|discriminate].
  - destruct (mkdir_failures (Samples.world_without_mkdir "EEXIST" Demo.clean_exit)
                Demo.scan_upload "EEXIST") as (_ & _ & Hinfer).
    rewrite Hinfer; reflexivity.
Defined.

Lemma unparseable_output_fails_witness :
  (run (Infer.POST (Demo.world Samples.chatty_exit) (Multipart Demo.scan_upload))).1 =
    Returned Infer.failure
  /\ (run (Train.POST (Demo.world Samples.chatty_exit) (Multipart Demo.start_round))).1 =
     Returned Train.failure
  /\ (run (Train.GET (Demo.world Samples.chatty_exit) (Multipart []))).1 =
     Returned Train.status_failure.
Proof.
  split; [|split].
  - eapply (unparseable_output_fails (Demo.world Samples.chatty_exit)
              (Multipart Demo.scan_upload) "python"
              (Infer.spawn_args (Demo.world Samples.chatty_exit) Demo.scan_upload
                 "/srv/app/uploads/42_1700000000000_scan.dcm"));
      [reflexivity|reflexivity|apply surjective_pairing|].
    vm_compute. apply list_elem_of_further, list_elem_of_further, list_elem_of_here.
  - eapply (unparseable_output_fails (Demo.world Samples.chatty_exit)
              (Multipart Demo.start_round) "python"
              (Train.base_args (Demo.world Samples.chatty_exit) Demo.start_round));
      [reflexivity|reflexivity|apply surjective_pairing|].
    apply list_elem_of_further, list_elem_of_here.
  - eapply (unparseable_output_fails (Demo.world Samples.chatty_exit)
              (Multipart []) "python"
              [Train.cli (Demo.world Samples.chatty_exit); Some (EStr "--mode");
               Some (EStr "status")]);
      [reflexivity|reflexivity|apply surjective_pairing|].
    apply list_elem_of_here.
Defined.

Lemma empty_field_is_missing_witness :
  run (Infer.POST (Demo.world Demo.clean_exit)
         (Multipart Samples.upload_with_empty_type)) =
  (Returned Infer.missing_fields, []).
Proof.
  apply (empty_field_is_missing (Demo.world Demo.clean_exit)
           Samples.upload_with_empty_type).
  left. reflexivity.
Defined.

Lemma text_instead_of_file_witness :
  (run (Infer.POST (Demo.world Demo.clean_exit)
          (Multipart Samples.upload_with_text_image))).1 = Returned Infer.failure
  /\ io (run (Infer.POST (Demo.world Demo.clean_exit)
                (Multipart Samples.upload_with_text_image))).2 =
     [Mkdir "/srv/app/uploads"].
Proof.
  destruct (text_instead_of_file (Demo.world Demo.clean_exit)
              Samples.upload_with_text_image "scan.dcm") as [Hinfer _];
    [discriminate|].
  apply Hinfer; reflexivity.
Defined.


Lemma selection_is_permanent_witness :
  is_Some
    (MedicalAnalysis.selectedFile
       (MedicalAnalysis.play (rt := Demo.runtime) Samples.json_truthy Samples.offline
          [MedicalAnalysis.PickFiles None; MedicalAnalysis.SelectType MedicalAnalysis.mri;
           MedicalAnalysis.Analyze; MedicalAnalysis.PickFiles (Some [])]
          Samples.form_with_file).1).
Proof.
  apply (selection_is_permanent (rt := Demo.runtime) Samples.json_truthy Samples.offline
           _ Samples.form_with_file Samples.scan).
  reflexivity.
Defined.

Lemma analysis_round_trip_witness :
  MedicalAnalysis.analysis
    (MedicalAnalysis.handleAnalyze (rt := Demo.runtime) Samples.json_truthy
       (MedicalAnalysis.deployed (Demo.world Demo.clean_exit))
       Samples.form_with_file).1 = Some (FDoc Demo.JEmptyObject)
  /\ MedicalAnalysis.error
       (MedicalAnalysis.handleAnalyze (rt := Demo.runtime) Samples.json_truthy
          (MedicalAnalysis.deployed (Demo.world Demo.clean_exit))
          Samples.form_with_file).1 = Some (FStr "Inference failed").
Proof.
  pose proof (analysis_round_trip (rt := Demo.runtime) Samples.json_truthy (Demo.world Demo.clean_exit)
                Samples.form_with_file Samples.scan eq_refl) as H.
  vm_compute in H. destruct H as (_ & (x & Hx & Hanalysis) & Herror).
  injection Hx as <-. split; [exact Hanalysis|exact Herror].
Defined.

Lemma numbered_url_inj : Inj (=) (=) Samples.numbered_url.
Proof.
  intros m n Heq. unfold Samples.numbered_url in Heq.
  apply (inj (String.app "blob:")) in Heq. by apply (inj pretty).
Qed.

Lemma previews_stay_distinct_witness :
  NoDup (UploadImage.preview <$>
           UploadImage.images
             (UploadImage.play Samples.numbered_url
                [UploadImage.PickFiles (Some [Samples.scan; Samples.scan]);
                 UploadImage.Remove 0;
                 UploadImage.PickFiles (Some [Samples.scan])]
                UploadImage.init).1).
Proof. apply previews_stay_distinct, numbered_url_inj. Defined.

Lemma disabled_iff_no_effect_witness :
  PatientDetail.left_disabled PatientDetail.init = true <->
  PatientDetail.handlePan PatientDetail.left PatientDetail.init = PatientDetail.init.
Proof.
  apply (disabled_iff_no_effect PatientDetail.init).
  unfold PatientDetail.in_range. cbn. lia.
Defined.

Lemma login_error_sticks_witness :
  Login.error_banner
    (LoginForm.play
       [LoginForm.SelectRole Login.doctor; LoginForm.TypeEmail "doctor@hospital.com";
        LoginForm.TypePassword "hunter2"; LoginForm.Submit]
       (Samples.scolded_form, Demo.signed_out)).1 = Some "Please select a role".
Proof.
  apply (login_error_sticks _ (Samples.scolded_form, Demo.signed_out)). reflexivity.
Defined.

Lemma empty_credentials_do_nothing_witness :
  Login.handleSubmit
    {| Login.email := "doctor@hospital.com"; Login.password := "";
       Login.selectedRole := Some Login.doctor; Login.error := "" |} Demo.signed_out =
  ({| Login.email := "doctor@hospital.com"; Login.password := "";
      Login.selectedRole := Some Login.doctor; Login.error := "" |}, Demo.signed_out).
Proof.
  apply (empty_credentials_do_nothing
           {| Login.email := "doctor@hospital.com"; Login.password := "";
              Login.selectedRole := Some Login.doctor; Login.error := "" |}
           Demo.signed_out).
  - by eexists.
  - right. reflexivity.
Defined.

Lemma login_then_dashboard_witness :
  Browser.getCookie "userRole"
    (Login.handleSubmit (Demo.filled_form (Some Login.doctor)) Demo.signed_out).2 =
  Some "doctor".
Proof.
  apply (login_then_dashboard (Demo.filled_form (Some Login.doctor)) Demo.signed_out
           Login.doctor); [reflexivity|discriminate|discriminate].
Defined.

Lemma unknown_role_cookie_witness :
  DashboardLayout.load (Samples.with_role_cookie "") =
    (DashboardLayout.Loading, (None, Browser.push "/" (Samples.with_role_cookie "")))
  /\ DashboardLayout.load (Samples.with_role_cookie "admin") =
     (DashboardLayout.Shell [], (Some "admin", Samples.with_role_cookie "admin")).
Proof.
  split.
  - apply (unknown_role_cookie (Samples.with_role_cookie "") ""); reflexivity.
  - apply (unknown_role_cookie (Samples.with_role_cookie "admin") "admin");
      [reflexivity|discriminate..].
Defined.

End ExtraInstances.
